(** * widget.c: Lua bindings of luakit's generic widget class

    A shallow embedding of [widget.c].  The file is glue code: every function
    reads or writes a few fields of a [widget_t] and otherwise calls into code
    that lives elsewhere (the Lua C API, luakit's class and object machinery,
    the five widget backends).  The embedding therefore has three parts:

    - the widget records, kept in an address-indexed store so that aliasing
      through [parent] and [window] pointers is visible;
    - the code that is not part of [widget.c], taken as the operations of a
      type class [Runtime];
    - a state-and-error monad [M] that threads the store, records every call
      that leaves [widget.c] in a call log, and propagates Lua errors
      (the [longjmp] of [lua_error]). *)

From Stdlib Require Import ZArith String List.
From stdpp Require Import base option gmap strings list.
Import ListNotations.

Local Open Scope Z_scope.

(** ** Data *)

(** Addresses of C objects.  A pointer that the code tests against [NULL] is
    an [option ptr]; [gpointer] values are never tested and stay raw. *)
Abbreviation ptr := N.
Abbreviation gpointer := N.

(** Addresses of the backend handlers stored in a widget. *)
Abbreviation fnptr := N.

(** The token enumeration is declared in another file.  The constructors
    below are the tokens [widget.c] names; every other member of the
    enumeration is an [L_TK_OTHER]. *)
Inductive luakit_token_t : Type :=
| L_TK_UNKNOWN
| L_TK_WEBVIEW
| L_TK_NOTEBOOK
| L_TK_TEXTAREA
| L_TK_HBOX
| L_TK_VBOX
| L_TK_PARENT
| L_TK_TYPE
| L_TK_OTHER (n : N).

(** The values a [widget_constructor_t *] takes in [widget.c]: the addresses
    of the five backend constructors. *)
Inductive widget_constructor_t : Type :=
| widget_webview
| widget_notebook
| widget_textarea
| widget_hbox
| widget_vbox.

(** Modelled from the spec: the declaration of [widget_t] is in [widget.h].
    The record has the fields the specification lists (optional parent,
    optional owning window, optional type name, optional index, newindex and
    destructor handlers) and the [ref] field [luaH_widget_new] writes. *)
Record widget_t : Type := mk_widget {
  parent : option ptr;
  window : option ptr;
  type : option string;
  index : option fnptr;
  newindex : option fnptr;
  destructor : option fnptr;
  ref : gpointer
}.

(** [window_t] is declared in another file; [widget.c] reads its [ref]
    only. *)
Record window_t : Type := mk_window {
  win_ref : gpointer
}.

Definition with_parent (p : option ptr) (w : widget_t) : widget_t :=
  mk_widget p (window w) (type w) (index w) (newindex w) (destructor w) (ref w).
Definition with_window (p : option ptr) (w : widget_t) : widget_t :=
  mk_widget (parent w) p (type w) (index w) (newindex w) (destructor w) (ref w).
Definition with_type (t : option string) (w : widget_t) : widget_t :=
  mk_widget (parent w) (window w) t (index w) (newindex w) (destructor w)
            (ref w).
Definition with_ref (r : gpointer) (w : widget_t) : widget_t :=
  mk_widget (parent w) (window w) (type w) (index w) (newindex w)
            (destructor w) r.

(** Everything reachable from a [lua_State *]: the widget and window objects
    and the interpreter proper (stack, registry, ...), which stays abstract. *)
Record lua_State (LuaVM : Type) : Type := mk_state {
  widgets : gmap N widget_t;
  windows : gmap N window_t;
  vm : LuaVM
}.
Arguments mk_state {LuaVM} _ _ _.
Arguments widgets {LuaVM} _.
Arguments windows {LuaVM} _.
Arguments vm {LuaVM} _.

Definition with_widgets {LuaVM} (m : gmap N widget_t) (s : lua_State LuaVM) :
  lua_State LuaVM := mk_state m (windows s) (vm s).
Definition with_vm {LuaVM} (v : LuaVM) (s : lua_State LuaVM) :
  lua_State LuaVM := mk_state (widgets s) (windows s) v.

(** A raised Lua error: the format string and its arguments. *)
Definition lua_error : Type := string * list string.

(** How a call ends: it returns, it raises a Lua error (control leaves the C
    function at once), or it dereferences an address that holds no object. *)
Inductive res (A : Type) : Type :=
| Ok (a : A)
| Throw (e : lua_error)
| Fault.
Arguments Ok {A} a.
Arguments Throw {A} e.
Arguments Fault {A}.

(** One entry of the call log per call that leaves [widget.c]. *)
Inductive event : Type :=
| Call_luaH_checkudata (ud : Z)
| Call_luaH_object_gc
| Call_luaH_class_new
| Call_lua_pushvalue (idx : Z)
| Call_luaH_object_ref_class (idx : Z)
| Call_luaL_checklstring (narg : Z)
| Call_luaH_class_index
| Call_luaH_class_newindex
| Call_luaL_error (fmt : string) (args : list string)
| Call_luaH_object_emit_signal (oud : Z) (name : string) (nargs : Z)
| Call_lua_pushstring (s : string)
| Call_luaH_object_push (p : gpointer)
| Call_constructor (wc : widget_constructor_t) (w : ptr)
| Call_destructor (f : fnptr) (w : ptr)
| Call_index (f : fnptr) (token : luakit_token_t)
| Call_newindex (f : fnptr) (token : luakit_token_t).

(** ** The code outside [widget.c]

    The Lua C API works on the interpreter only.  luakit's own helpers and
    the backends may touch the objects as well.  A function that receives the
    [lua_State *] may raise (the two pushes of the Lua C API apart); the
    constructors and destructors receive only the widget and return. *)
Class Runtime (LuaVM : Type) : Type := {
  (* Lua C API *)
  lua_pushvalue_sem : Z -> LuaVM -> LuaVM;
  lua_pushstring_sem : string -> LuaVM -> LuaVM;
  luaL_checklstring_sem : Z -> LuaVM -> LuaVM * res string;
  (* the tokenizer *)
  l_tokenize : string -> luakit_token_t;
  (* luakit's classes and objects: common/luaclass.h, common/luaobject.h *)
  luaH_checkudata_sem : Z -> lua_State LuaVM -> lua_State LuaVM * res ptr;
  luaH_object_gc_sem : lua_State LuaVM -> lua_State LuaVM * res Z;
  luaH_class_new_sem : lua_State LuaVM -> lua_State LuaVM * res Z;
  luaH_object_ref_class_sem :
    Z -> lua_State LuaVM -> lua_State LuaVM * res gpointer;
  luaH_class_index_sem : lua_State LuaVM -> lua_State LuaVM * res Z;
  luaH_class_newindex_sem : lua_State LuaVM -> lua_State LuaVM * res Z;
  luaH_object_emit_signal_sem :
    Z -> string -> Z -> lua_State LuaVM -> lua_State LuaVM * res unit;
  luaH_object_push_sem :
    gpointer -> lua_State LuaVM -> lua_State LuaVM * res Z;
  (* the backends under widgets/ *)
  constructor_sem :
    widget_constructor_t -> ptr -> lua_State LuaVM -> lua_State LuaVM;
  destructor_sem : fnptr -> ptr -> lua_State LuaVM -> lua_State LuaVM;
  index_sem :
    fnptr -> luakit_token_t -> lua_State LuaVM -> lua_State LuaVM * res Z;
  newindex_sem :
    fnptr -> luakit_token_t -> lua_State LuaVM -> lua_State LuaVM * res Z
}.

(** ** The monad *)

Section Monad.
Context {LuaVM : Type}.

Definition world : Type := lua_State LuaVM * list event.

Definition M (A : Type) : Type := world -> world * res A.

Definition ret {A} (a : A) : M A := fun σ => (σ, Ok a).

Definition bind {A B} (m : M A) (k : A -> M B) : M B :=
  fun σ =>
    match m σ with
    | (σ', Ok a) => k a σ'
    | (σ', Throw e) => (σ', Throw e)
    | (σ', Fault) => (σ', Fault)
    end.

(** A call to code outside [widget.c]: logged, then run. *)
Definition call {A} (ev : event)
    (f : lua_State LuaVM -> lua_State LuaVM * res A) : M A :=
  fun σ => ((fst (f (fst σ)), snd σ ++ [ev]), snd (f (fst σ))).

(** A Lua C API function works on the interpreter only. *)
Definition on_vm (f : LuaVM -> LuaVM) (s : lua_State LuaVM) :
    lua_State LuaVM :=
  with_vm (f (vm s)) s.

Definition on_vm_res {A} (f : LuaVM -> LuaVM * res A)
    (s : lua_State LuaVM) : lua_State LuaVM * res A :=
  (with_vm (fst (f (vm s))) s, snd (f (vm s))).

Definition returns {A} (a : A) (f : lua_State LuaVM -> lua_State LuaVM)
    (s : lua_State LuaVM) : lua_State LuaVM * res A :=
  (f s, Ok a).

(** [w->field] *)
Definition load (w : ptr) : M widget_t :=
  fun σ =>
    match widgets (fst σ) !! w with
    | Some wd => (σ, Ok wd)
    | None => (σ, Fault)
    end.

(** The state once the object at [w], which was [wd], has become [f wd]. *)
Definition assign (w : ptr) (f : widget_t -> widget_t) (wd : widget_t)
    (s : lua_State LuaVM) : lua_State LuaVM :=
  with_widgets (<[w := f wd]> (widgets s)) s.

(** [w->field = v] *)
Definition store (w : ptr) (f : widget_t -> widget_t) : M unit :=
  fun σ =>
    match widgets (fst σ) !! w with
    | Some wd => ((assign w f wd (fst σ), snd σ), Ok tt)
    | None => (σ, Fault)
    end.

(** [win->field] *)
Definition load_window (p : ptr) : M window_t :=
  fun σ =>
    match windows (fst σ) !! p with
    | Some wn => (σ, Ok wn)
    | None => (σ, Fault)
    end.

(** [luaL_error] never returns: the error unwinds the C function. *)
Definition luaL_error {A} (fmt : string) (args : list string) : M A :=
  fun σ => ((fst σ, snd σ ++ [Call_luaL_error fmt args]), Throw (fmt, args)).
End Monad.
Arguments world : clear implicits.
Arguments M : clear implicits.

Declare Scope lua_scope.
Delimit Scope lua_scope with lua.
Notation "x <- m ;; k" := (bind m (fun x => k))
  (at level 100, m at next level, right associativity) : lua_scope.
Notation "m ;; k" := (bind m (fun _ => k))
  (at level 100, right associativity) : lua_scope.
Local Open Scope lua_scope.

(** ** widget.c *)

Definition dquote : string := String (Ascii.ascii_of_nat 34) EmptyString.

(** The format of the duplicate-assignment error: the name is printed
    between double quotes. *)
Definition fmt_already : string :=
  "widget is already of type " +:+ dquote +:+ "%s" +:+ dquote.

Definition fmt_unknown : string := "unknown widget type: %s".

(** A Lua string is counted: [luaL_checklstring] yields its bytes and their
    number, and [l_tokenize] is given both.  Read as a C string, the same
    bytes end at the first NUL: that is what [g_strdup] copies and what a
    [%s] prints.  A [type] field holds the characters of the C string it
    points to. *)
Fixpoint c_str (s : string) : string :=
  match s with
  | EmptyString => EmptyString
  | String c s' =>
      if Ascii.eqb c Ascii.zero then EmptyString else String c (c_str s')
  end.

Definition g_strdup (s : string) : string := c_str s.

(** The [switch] of [luaH_widget_set_type]. *)
Definition constructor_of_token (tok : luakit_token_t) :
    option widget_constructor_t :=
  match tok with
  | L_TK_WEBVIEW => Some widget_webview
  | L_TK_NOTEBOOK => Some widget_notebook
  | L_TK_TEXTAREA => Some widget_textarea
  | L_TK_HBOX => Some widget_hbox
  | L_TK_VBOX => Some widget_vbox
  | _ => None
  end.

(** The five widget types, and the backend of each. *)
Definition known_types : list luakit_token_t :=
  [L_TK_WEBVIEW; L_TK_NOTEBOOK; L_TK_TEXTAREA; L_TK_HBOX; L_TK_VBOX].

Definition backends : list (luakit_token_t * widget_constructor_t) :=
  [(L_TK_WEBVIEW, widget_webview); (L_TK_NOTEBOOK, widget_notebook);
   (L_TK_TEXTAREA, widget_textarea); (L_TK_HBOX, widget_hbox);
   (L_TK_VBOX, widget_vbox)].

Section Widget.
Context {LuaVM : Type} `{!Runtime LuaVM}.

Local Abbreviation M := (M LuaVM).

(** The callees, as [widget.c] calls them.  The class argument is always
    [&widget_class] and is left out. *)
Definition luaH_checkudata (ud : Z) : M ptr :=
  call (Call_luaH_checkudata ud) (luaH_checkudata_sem ud).
Definition luaH_object_gc : M Z :=
  call Call_luaH_object_gc luaH_object_gc_sem.
Definition luaH_class_new : M Z :=
  call Call_luaH_class_new luaH_class_new_sem.
Definition lua_pushvalue (idx : Z) : M unit :=
  call (Call_lua_pushvalue idx) (returns tt (on_vm (lua_pushvalue_sem idx))).
Definition luaH_object_ref_class (idx : Z) : M gpointer :=
  call (Call_luaH_object_ref_class idx) (luaH_object_ref_class_sem idx).
Definition luaL_checklstring (narg : Z) : M string :=
  call (Call_luaL_checklstring narg) (on_vm_res (luaL_checklstring_sem narg)).
Definition luaH_class_index : M Z :=
  call Call_luaH_class_index luaH_class_index_sem.
Definition luaH_class_newindex : M Z :=
  call Call_luaH_class_newindex luaH_class_newindex_sem.
Definition luaH_object_emit_signal (oud : Z) (name : string) (nargs : Z) :
    M unit :=
  call (Call_luaH_object_emit_signal oud name nargs)
       (luaH_object_emit_signal_sem oud name nargs).
Definition lua_pushstring (s : string) : M unit :=
  call (Call_lua_pushstring s) (returns tt (on_vm (lua_pushstring_sem s))).
Definition luaH_object_push (p : gpointer) : M Z :=
  call (Call_luaH_object_push p) (luaH_object_push_sem p).
Definition call_constructor (wc : widget_constructor_t) (w : ptr) : M unit :=
  call (Call_constructor wc w) (returns tt (constructor_sem wc w)).
Definition call_destructor (f : fnptr) (w : ptr) : M unit :=
  call (Call_destructor f w) (returns tt (destructor_sem f w)).
Definition call_index (f : fnptr) (token : luakit_token_t) : M Z :=
  call (Call_index f token) (index_sem f token).
Definition call_newindex (f : fnptr) (token : luakit_token_t) : M Z :=
  call (Call_newindex f token) (newindex_sem f token).

Definition luaH_widget_gc : M Z :=
  widget <- luaH_checkudata 1 ;;
  wd <- load widget ;;
  match destructor wd with
  | Some d => call_destructor d widget
  | None => ret tt
  end ;;
  luaH_object_gc.

Definition luaH_widget_new : M Z :=
  luaH_class_new ;;
  w <- luaH_checkudata (-1) ;;
  store w (with_parent None) ;;
  store w (with_window None) ;;
  (* save ref to the lua class instance *)
  lua_pushvalue (-1) ;;
  r <- luaH_object_ref_class (-1) ;;
  store w (with_ref r) ;;
  ret 1.

Definition luaH_widget_index : M Z :=
  prop <- luaL_checklstring 2 ;;
  let token := l_tokenize prop in
  (* Try standard method *)
  n <- luaH_class_index ;;
  if negb (n =? 0) then ret 1 else
  (* Then call special widget index *)
  widget <- luaH_checkudata 1 ;;
  wd <- load widget ;;
  match index wd with
  | Some f => call_index f token
  | None => ret 0
  end.

Definition luaH_widget_newindex : M Z :=
  prop <- luaL_checklstring 2 ;;
  let token := l_tokenize prop in
  (* Try standard method *)
  luaH_class_newindex ;;
  (* Then call special widget newindex *)
  widget <- luaH_checkudata 1 ;;
  wd <- load widget ;;
  match newindex wd with
  | Some f => call_newindex f token
  | None => ret 0
  end.

Definition luaH_widget_set_type (w : ptr) : M Z :=
  wd <- load w ;;
  match type wd with
  | Some t => luaL_error fmt_already [t]
  | None => ret tt
  end ;;
  type <- luaL_checklstring (-1) ;;
  let tok := l_tokenize type in
  match constructor_of_token tok with
  | None => luaL_error fmt_unknown [c_str type]
  | Some wc =>
      call_constructor wc w ;;
      store w (with_type (Some (g_strdup type))) ;;
      luaH_object_emit_signal (-3) "init" 0 ;;
      ret 0
  end.

Definition luaH_widget_get_type (w : ptr) : M Z :=
  wd <- load w ;;
  match type wd with
  | None => ret 0
  | Some t => lua_pushstring t ;; ret 1
  end.

Definition luaH_widget_get_parent (w : ptr) : M Z :=
  wd <- load w ;;
  match parent wd with
  | Some p =>
      pw <- load p ;;
      luaH_object_push (ref pw) ;;
      ret 1
  | None =>
      match window wd with
      | Some q =>
          win <- load_window q ;;
          luaH_object_push (win_ref win) ;;
          ret 1
      | None => ret 0
      end
  end.
End Widget.

(** ** Runs

    A Lua script reaches [widget.c] through the functions that
    [widget_class_setup] registers. *)
Inductive op : Type :=
| Op_gc
| Op_new
| Op_index
| Op_newindex
| Op_set_type (w : ptr)
| Op_get_type (w : ptr)
| Op_get_parent (w : ptr).

(** [widget_class_setup]: the method and metamethod tables (the entries of
    [LUA_CLASS_METHODS] and [LUA_OBJECT_META] apart, which are not code of
    this file), and per property the three callbacks handed to
    [luaH_class_add_property], in the order of the call. *)
Definition widget_methods : list (string * op) :=
  [("__call", Op_new)].

Definition widget_meta : list (string * op) :=
  [("__index", Op_index); ("__newindex", Op_newindex); ("__gc", Op_gc)].

Definition widget_properties :
    list (luakit_token_t *
          (option (ptr -> op) * option (ptr -> op) * option (ptr -> op))) :=
  [(L_TK_PARENT, (None, Some Op_get_parent, None));
   (L_TK_TYPE, (Some Op_set_type, Some Op_get_type, None))].

Section Runs.
Context {LuaVM : Type} `{!Runtime LuaVM}.

(** A run from a state, with an empty call log. *)
Definition run {A} (m : M LuaVM A) (s : lua_State LuaVM) :
    world LuaVM * res A :=
  m (s, []).

Definition state_of {A} (out : world LuaVM * res A) : lua_State LuaVM :=
  fst (fst out).
Definition log_of {A} (out : world LuaVM * res A) : list event :=
  snd (fst out).
Definition result_of {A} (out : world LuaVM * res A) : res A := snd out.

Definition run_op (o : op) : M LuaVM Z :=
  match o with
  | Op_gc => luaH_widget_gc
  | Op_new => luaH_widget_new
  | Op_index => luaH_widget_index
  | Op_newindex => luaH_widget_newindex
  | Op_set_type w => luaH_widget_set_type w
  | Op_get_type w => luaH_widget_get_type w
  | Op_get_parent w => luaH_widget_get_parent w
  end.

(** Operations one after the other.  An operation that raises is over; the
    script goes on from the state it left. *)
Fixpoint run_ops (os : list op) (s : lua_State LuaVM) : lua_State LuaVM :=
  match os with
  | [] => s
  | o :: os' => run_ops os' (state_of (run (run_op o) s))
  end.

(** [s'] keeps every type name that is set in [s]. *)
Definition keeps_types (s s' : lua_State LuaVM) : Prop :=
  forall w wd t,
    widgets s !! w = Some wd -> type wd = Some t ->
    exists wd', widgets s' !! w = Some wd' /\ type wd' = Some t.

(** The code outside [widget.c] never touches a type name that is set. *)
Record type_frame : Prop := {
  frame_checkudata :
    forall ud s, keeps_types s (fst (luaH_checkudata_sem ud s));
  frame_object_gc : forall s, keeps_types s (fst (luaH_object_gc_sem s));
  frame_class_new : forall s, keeps_types s (fst (luaH_class_new_sem s));
  frame_object_ref_class :
    forall idx s, keeps_types s (fst (luaH_object_ref_class_sem idx s));
  frame_class_index : forall s, keeps_types s (fst (luaH_class_index_sem s));
  frame_class_newindex :
    forall s, keeps_types s (fst (luaH_class_newindex_sem s));
  frame_emit_signal :
    forall oud name nargs s,
      keeps_types s (fst (luaH_object_emit_signal_sem oud name nargs s));
  frame_object_push :
    forall p s, keeps_types s (fst (luaH_object_push_sem p s));
  frame_constructor : forall wc w s, keeps_types s (constructor_sem wc w s);
  frame_destructor : forall f w s, keeps_types s (destructor_sem f w s);
  frame_index : forall f tok s, keeps_types s (fst (index_sem f tok s));
  frame_newindex : forall f tok s, keeps_types s (fst (newindex_sem f tok s))
}.

(** A program of [M] that keeps the type names, whatever its outcome. *)
Definition preserves {A} (m : M LuaVM A) : Prop :=
  forall σ, keeps_types (fst σ) (fst (fst (m σ))).

(** The stages of a type assignment: the name read off the stack, the state
    that read leaves, the state the constructor [wc] leaves, the state once
    the copy of the name [t] is stored over the constructed [wd1], and the
    emission of [init]. *)
Definition name_of (s : lua_State LuaVM) : res string :=
  snd (luaL_checklstring_sem (-1) (vm s)).
Definition named (s : lua_State LuaVM) : lua_State LuaVM :=
  with_vm (fst (luaL_checklstring_sem (-1) (vm s))) s.
Definition constructed (wc : widget_constructor_t) (w : ptr)
    (s : lua_State LuaVM) : lua_State LuaVM :=
  constructor_sem wc w (named s).
Definition typed (wc : widget_constructor_t) (w : ptr) (t : string)
    (wd1 : widget_t) (s : lua_State LuaVM) : lua_State LuaVM :=
  assign w (with_type (Some (g_strdup t))) wd1 (constructed wc w s).
Definition emit_init (s : lua_State LuaVM) : lua_State LuaVM * res unit :=
  luaH_object_emit_signal_sem (-3) "init" 0 s.

(** The result of a callee whose own result is dropped for [n]. *)
Definition and_return {A} (r : res A) (n : Z) : res Z :=
  match r with
  | Ok _ => Ok n
  | Throw e => Throw e
  | Fault => Fault
  end.

(** The ways [luaH_widget_set_type (L, w)] can go from the state [s]. *)
Inductive set_type_outcome (s : lua_State LuaVM) (w : ptr) :
    world LuaVM * res Z -> Prop :=
| Outcome_dangling :
    widgets s !! w = None ->
    set_type_outcome s w ((s, []), Fault)
| Outcome_already wd t :
    widgets s !! w = Some wd -> type wd = Some t ->
    set_type_outcome s w
      ((s, [Call_luaL_error fmt_already [t]]), Throw (fmt_already, [t]))
| Outcome_no_name wd :
    widgets s !! w = Some wd -> type wd = None ->
    (forall t, name_of s <> Ok t) ->
    set_type_outcome s w
      ((named s, [Call_luaL_checklstring (-1)]), and_return (name_of s) 0)
| Outcome_unknown wd t :
    widgets s !! w = Some wd -> type wd = None ->
    name_of s = Ok t ->
    constructor_of_token (l_tokenize t) = None ->
    set_type_outcome s w
      ((named s,
        [Call_luaL_checklstring (-1);
         Call_luaL_error fmt_unknown [c_str t]]),
       Throw (fmt_unknown, [c_str t]))
| Outcome_freed wd t wc :
    widgets s !! w = Some wd -> type wd = None ->
    name_of s = Ok t ->
    constructor_of_token (l_tokenize t) = Some wc ->
    widgets (constructed wc w s) !! w = None ->
    set_type_outcome s w
      ((constructed wc w s,
        [Call_luaL_checklstring (-1); Call_constructor wc w]),
       Fault)
| Outcome_assigned wd t wc wd1 :
    widgets s !! w = Some wd -> type wd = None ->
    name_of s = Ok t ->
    constructor_of_token (l_tokenize t) = Some wc ->
    widgets (constructed wc w s) !! w = Some wd1 ->
    set_type_outcome s w
      ((fst (emit_init (typed wc w t wd1 s)),
        [Call_luaL_checklstring (-1); Call_constructor wc w;
         Call_luaH_object_emit_signal (-3) "init" 0]),
       and_return (snd (emit_init (typed wc w t wd1 s))) 0).

(** The assignment of the name [t] to [w] goes through: the widget has no
    type yet, [t] is the string on the stack, it names the backend [wc], and
    [wd1] is the widget as the constructor leaves it. *)
Definition assignment (s : lua_State LuaVM) (w : ptr) (t : string)
    (wc : widget_constructor_t) (wd1 : widget_t) : Prop :=
  (exists wd, widgets s !! w = Some wd /\ type wd = None) /\
  name_of s = Ok t /\
  constructor_of_token (l_tokenize t) = Some wc /\
  widgets (constructed wc w s) !! w = Some wd1.

(** The property name of an access, and the state reading it leaves. *)
Definition prop_of (s : lua_State LuaVM) : res string :=
  snd (luaL_checklstring_sem 2 (vm s)).
Definition keyed (s : lua_State LuaVM) : lua_State LuaVM :=
  with_vm (fst (luaL_checklstring_sem 2 (vm s))) s.

(** The ways [luaH_widget_index (L)] can go from the state [s]. *)
Inductive index_outcome (s : lua_State LuaVM) :
    world LuaVM * res Z -> Prop :=
| Index_no_key :
    (forall prop, prop_of s <> Ok prop) ->
    index_outcome s
      ((keyed s, [Call_luaL_checklstring 2]), and_return (prop_of s) 0)
| Index_class_stops prop :
    prop_of s = Ok prop ->
    (forall n, snd (luaH_class_index_sem (keyed s)) <> Ok n) ->
    index_outcome s
      ((fst (luaH_class_index_sem (keyed s)),
        [Call_luaL_checklstring 2; Call_luaH_class_index]),
       and_return (snd (luaH_class_index_sem (keyed s))) 0)
| Index_class prop s1 n :
    prop_of s = Ok prop ->
    luaH_class_index_sem (keyed s) = (s1, Ok n) -> n <> 0 ->
    index_outcome s
      ((s1, [Call_luaL_checklstring 2; Call_luaH_class_index]), Ok 1)
| Index_no_widget prop s1 :
    prop_of s = Ok prop ->
    luaH_class_index_sem (keyed s) = (s1, Ok 0) ->
    (forall w, snd (luaH_checkudata_sem 1 s1) <> Ok w) ->
    index_outcome s
      ((fst (luaH_checkudata_sem 1 s1),
        [Call_luaL_checklstring 2; Call_luaH_class_index;
         Call_luaH_checkudata 1]),
       and_return (snd (luaH_checkudata_sem 1 s1)) 0)
| Index_dangling prop s1 s2 widget :
    prop_of s = Ok prop ->
    luaH_class_index_sem (keyed s) = (s1, Ok 0) ->
    luaH_checkudata_sem 1 s1 = (s2, Ok widget) ->
    widgets s2 !! widget = None ->
    index_outcome s
      ((s2, [Call_luaL_checklstring 2; Call_luaH_class_index;
             Call_luaH_checkudata 1]),
       Fault)
| Index_no_handler prop s1 s2 widget wd :
    prop_of s = Ok prop ->
    luaH_class_index_sem (keyed s) = (s1, Ok 0) ->
    luaH_checkudata_sem 1 s1 = (s2, Ok widget) ->
    widgets s2 !! widget = Some wd -> index wd = None ->
    index_outcome s
      ((s2, [Call_luaL_checklstring 2; Call_luaH_class_index;
             Call_luaH_checkudata 1]),
       Ok 0)
| Index_backend prop s1 s2 widget wd f :
    prop_of s = Ok prop ->
    luaH_class_index_sem (keyed s) = (s1, Ok 0) ->
    luaH_checkudata_sem 1 s1 = (s2, Ok widget) ->
    widgets s2 !! widget = Some wd -> index wd = Some f ->
    index_outcome s
      ((fst (index_sem f (l_tokenize prop) s2),
        [Call_luaL_checklstring 2; Call_luaH_class_index;
         Call_luaH_checkudata 1; Call_index f (l_tokenize prop)]),
       snd (index_sem f (l_tokenize prop) s2)).

(** The ways [luaH_widget_newindex (L)] can go from the state [s]. *)
Inductive newindex_outcome (s : lua_State LuaVM) :
    world LuaVM * res Z -> Prop :=
| Newindex_no_key :
    (forall prop, prop_of s <> Ok prop) ->
    newindex_outcome s
      ((keyed s, [Call_luaL_checklstring 2]), and_return (prop_of s) 0)
| Newindex_class_stops prop :
    prop_of s = Ok prop ->
    (forall n, snd (luaH_class_newindex_sem (keyed s)) <> Ok n) ->
    newindex_outcome s
      ((fst (luaH_class_newindex_sem (keyed s)),
        [Call_luaL_checklstring 2; Call_luaH_class_newindex]),
       and_return (snd (luaH_class_newindex_sem (keyed s))) 0)
| Newindex_no_widget prop s1 n :
    prop_of s = Ok prop ->
    luaH_class_newindex_sem (keyed s) = (s1, Ok n) ->
    (forall w, snd (luaH_checkudata_sem 1 s1) <> Ok w) ->
    newindex_outcome s
      ((fst (luaH_checkudata_sem 1 s1),
        [Call_luaL_checklstring 2; Call_luaH_class_newindex;
         Call_luaH_checkudata 1]),
       and_return (snd (luaH_checkudata_sem 1 s1)) 0)
| Newindex_dangling prop s1 n s2 widget :
    prop_of s = Ok prop ->
    luaH_class_newindex_sem (keyed s) = (s1, Ok n) ->
    luaH_checkudata_sem 1 s1 = (s2, Ok widget) ->
    widgets s2 !! widget = None ->
    newindex_outcome s
      ((s2, [Call_luaL_checklstring 2; Call_luaH_class_newindex;
             Call_luaH_checkudata 1]),
       Fault)
| Newindex_no_handler prop s1 n s2 widget wd :
    prop_of s = Ok prop ->
    luaH_class_newindex_sem (keyed s) = (s1, Ok n) ->
    luaH_checkudata_sem 1 s1 = (s2, Ok widget) ->
    widgets s2 !! widget = Some wd -> newindex wd = None ->
    newindex_outcome s
      ((s2, [Call_luaL_checklstring 2; Call_luaH_class_newindex;
             Call_luaH_checkudata 1]),
       Ok 0)
| Newindex_backend prop s1 n s2 widget wd f :
    prop_of s = Ok prop ->
    luaH_class_newindex_sem (keyed s) = (s1, Ok n) ->
    luaH_checkudata_sem 1 s1 = (s2, Ok widget) ->
    widgets s2 !! widget = Some wd -> newindex wd = Some f ->
    newindex_outcome s
      ((fst (newindex_sem f (l_tokenize prop) s2),
        [Call_luaL_checklstring 2; Call_luaH_class_newindex;
         Call_luaH_checkudata 1; Call_newindex f (l_tokenize prop)]),
       snd (newindex_sem f (l_tokenize prop) s2)).

(** The entry of the call log that emits the signal [init]. *)
Definition is_init_signal (e : event) : bool :=
  match e with
  | Call_luaH_object_emit_signal _ name _ => String.eqb name "init"
  | _ => false
  end.

Definition is_constructor_call (e : event) : bool :=
  match e with
  | Call_constructor _ _ => true
  | _ => false
  end.

(** A raise of [widget.c]'s own: the run ends in the error that its last
    call, a [luaL_error], raised. *)
Definition raises_error {A} (out : world LuaVM * res A) : Prop :=
  exists fmt args,
    result_of out = Throw (fmt, args) /\
    last (log_of out) = Some (Call_luaL_error fmt args).

End Runs.

(** ** A small runtime

    A Lua stack of strings and widget handles, a class machinery that knows
    the [type] property, and backends that install three handlers each.  It
    serves to run the definitions above on concrete states. *)
Module Sample.

Inductive lua_value : Type :=
| LNil
| LString (s : string)
| LUserdata (p : ptr).

(** Stack slot [idx]: counted from the bottom when positive, from the top
    when negative. *)
Definition slot (idx : Z) (st : list lua_value) : option lua_value :=
  if 0 <? idx then st !! Z.to_nat (idx - 1)
  else if (idx <? 0) && (0 <=? Z.of_nat (length st) + idx)
       then st !! Z.to_nat (Z.of_nat (length st) + idx)
       else None.

Definition push (v : lua_value) (st : list lua_value) : list lua_value :=
  st ++ [v].

Definition push_state (v : lua_value) (s : lua_State (list lua_value)) :
    lua_State (list lua_value) :=
  with_vm (push v (vm s)) s.

Definition bad_argument : lua_error := ("bad argument", []).

Definition tokenize (s : string) : luakit_token_t :=
  if String.eqb s "webview" then L_TK_WEBVIEW
  else if String.eqb s "notebook" then L_TK_NOTEBOOK
  else if String.eqb s "textarea" then L_TK_TEXTAREA
  else if String.eqb s "hbox" then L_TK_HBOX
  else if String.eqb s "vbox" then L_TK_VBOX
  else if String.eqb s "parent" then L_TK_PARENT
  else if String.eqb s "type" then L_TK_TYPE
  else L_TK_UNKNOWN.

Definition checklstring (narg : Z) (st : list lua_value) :
    list lua_value * res string :=
  match slot narg st with
  | Some (LString s) => (st, Ok s)
  | _ => (st, Throw bad_argument)
  end.

Definition checkudata (ud : Z) (s : lua_State (list lua_value)) :
    lua_State (list lua_value) * res ptr :=
  match slot ud (vm s) with
  | Some (LUserdata p) =>
      match widgets s !! p with
      | Some _ => (s, Ok p)
      | None => (s, Throw bad_argument)
      end
  | _ => (s, Throw bad_argument)
  end.

Definition blank : widget_t := mk_widget None None None None None None 0%N.

(** Allocates a blank widget at the first address past the store's size, if
    that address is free, and pushes its handle. *)
Definition class_new (s : lua_State (list lua_value)) :
    lua_State (list lua_value) * res Z :=
  let p := N.succ (N.of_nat (size (widgets s))) in
  match widgets s !! p with
  | Some _ => (s, Throw ("not enough memory", []))
  | None =>
      (push_state (LUserdata p) (with_widgets (<[p := blank]> (widgets s)) s),
       Ok 1)
  end.

Definition object_ref_class (idx : Z) (s : lua_State (list lua_value)) :
    lua_State (list lua_value) * res gpointer :=
  match slot idx (vm s) with
  | Some (LUserdata p) => (with_vm (removelast (vm s)) s, Ok p)
  | _ => (s, Throw bad_argument)
  end.

(** The class serves the property [type] of a typed widget itself. *)
Definition class_index (s : lua_State (list lua_value)) :
    lua_State (list lua_value) * res Z :=
  match slot 1 (vm s), slot 2 (vm s) with
  | Some (LUserdata p), Some (LString k) =>
      match tokenize k, widgets s !! p with
      | L_TK_TYPE, Some wd =>
          match type wd with
          | Some t => (push_state (LString t) s, Ok 1)
          | None => (s, Ok 0)
          end
      | _, _ => (s, Ok 0)
      end
  | _, _ => (s, Ok 0)
  end.

Definition handlers (wc : widget_constructor_t) : N :=
  match wc with
  | widget_webview => 10
  | widget_notebook => 20
  | widget_textarea => 30
  | widget_hbox => 40
  | widget_vbox => 50
  end%N.

Definition install (wc : widget_constructor_t) (wd : widget_t) : widget_t :=
  mk_widget (parent wd) (window wd) (type wd)
            (Some (handlers wc + 1)%N) (Some (handlers wc + 2)%N)
            (Some (handlers wc + 3)%N) (ref wd).

Definition construct (wc : widget_constructor_t) (w : ptr)
    (s : lua_State (list lua_value)) : lua_State (list lua_value) :=
  with_widgets (alter (install wc) w (widgets s)) s.

#[global] Instance runtime : Runtime (list lua_value) := {|
  lua_pushvalue_sem idx st :=
    match slot idx st with Some v => push v st | None => push LNil st end;
  lua_pushstring_sem s st := push (LString s) st;
  luaL_checklstring_sem := checklstring;
  l_tokenize := tokenize;
  luaH_checkudata_sem := checkudata;
  luaH_object_gc_sem s := (s, Ok 0);
  luaH_class_new_sem := class_new;
  luaH_object_ref_class_sem := object_ref_class;
  luaH_class_index_sem := class_index;
  luaH_class_newindex_sem s := (s, Ok 0);
  luaH_object_emit_signal_sem _ _ _ s := (s, Ok tt);
  luaH_object_push_sem p s := (push_state (LUserdata p) s, Ok 1);
  constructor_sem := construct;
  destructor_sem _ _ s := s;
  index_sem f _ s := (push_state (LString "backend") s, Ok 1);
  newindex_sem _ _ s := (s, Ok 0)
|}.

(** A blank widget at address 1, with [name] on top of the stack. *)
Definition untyped (name : string) : lua_State (list lua_value) :=
  mk_state {[ 1%N := blank ]} ∅ [LUserdata 1%N; LString "type"; LString name].

(** A webview at address 1, and an access to its property [key]. *)
Definition webview : widget_t :=
  install widget_webview (with_type (Some "webview") blank).

Definition accessing (key : string) : lua_State (list lua_value) :=
  mk_state {[ 1%N := webview ]} ∅ [LUserdata 1%N; LString key; LNil].

(** A widget at address 1 inside the widget at address 2, both in the window
    at address 3. *)
Definition inner : widget_t :=
  mk_widget (Some 2%N) (Some 3%N) None None None None 6%N.
Definition outer : widget_t :=
  mk_widget None (Some 3%N) None None None None 7%N.

Definition nested : lua_State (list lua_value) :=
  mk_state {[ 1%N := inner; 2%N := outer ]} {[ 3%N := mk_window 9%N ]}
           [LUserdata 1%N].

(** A blank widget at address 1, and on top of the stack a value that is no
    string. *)
Definition misnamed : lua_State (list lua_value) :=
  mk_state {[ 1%N := blank ]} ∅
           [LUserdata 1%N; LString "type"; LUserdata 1%N].

(** A blank widget at address 1 beside the widget [outer] at address 2, with
    [name] on top of the stack. *)
Definition beside (name : string) : lua_State (list lua_value) :=
  mk_state {[ 1%N := blank; 2%N := outer ]} ∅
           [LUserdata 1%N; LString "type"; LString name].

End Sample.

(** ** Calls and records across the operations *)

Section Calls.
Context {LuaVM : Type} `{!Runtime LuaVM}.

(** The calls into a backend, the backend call that belongs to an
    operation, the errors [widget.c] raises itself, and the pushes of a
    result. *)
Definition is_backend_call (e : event) : bool :=
  match e with
  | Call_constructor _ _ | Call_destructor _ _
  | Call_index _ _ | Call_newindex _ _ => true
  | _ => false
  end.

Definition backend_call_of (o : op) (e : event) : bool :=
  match o, e with
  | Op_gc, Call_destructor _ _ => true
  | Op_index, Call_index _ _ => true
  | Op_newindex, Call_newindex _ _ => true
  | Op_set_type w, Call_constructor _ w' => N.eqb w w'
  | _, _ => false
  end.

Definition is_own_error (e : event) : bool :=
  match e with
  | Call_luaL_error _ _ => true
  | _ => false
  end.

Definition is_push (e : event) : bool :=
  match e with
  | Call_lua_pushstring _ | Call_luaH_object_push _ => true
  | _ => false
  end.

(** The operations whose own code writes to a widget record. *)
Definition writes (o : op) : bool :=
  match o with
  | Op_new | Op_set_type _ => true
  | _ => false
  end.

(** The full call sequences of a read and of a write of a property. *)
Definition index_calls (f : fnptr) (tok : luakit_token_t) : list event :=
  [Call_luaL_checklstring 2; Call_luaH_class_index; Call_luaH_checkudata 1;
   Call_index f tok].

Definition newindex_calls (f : fnptr) (tok : luakit_token_t) : list event :=
  [Call_luaL_checklstring 2; Call_luaH_class_newindex;
   Call_luaH_checkudata 1; Call_newindex f tok].

(** [s'] keeps every widget of [s] that satisfies [P], and [P] of it. *)
Definition keeps (P : widget_t -> Prop) (s s' : lua_State LuaVM) : Prop :=
  forall w wd,
    widgets s !! w = Some wd -> P wd ->
    exists wd', widgets s' !! w = Some wd' /\ P wd'.

(** [P] survives the four field writes of [widget.c]: [parent = NULL],
    [window = NULL], [ref = r] and [type = name]. *)
Definition stable (P : widget_t -> Prop) : Prop :=
  forall wd,
    P wd ->
    P (with_parent None wd) /\ P (with_window None wd) /\
    (forall r, P (with_ref r wd)) /\ (forall t, P (with_type (Some t) wd)).

(** The code outside [widget.c] keeps [P]. *)
Record respects (P : widget_t -> Prop) : Prop := {
  respects_checkudata :
    forall ud s, keeps P s (fst (luaH_checkudata_sem ud s));
  respects_object_gc : forall s, keeps P s (fst (luaH_object_gc_sem s));
  respects_class_new : forall s, keeps P s (fst (luaH_class_new_sem s));
  respects_object_ref_class :
    forall idx s, keeps P s (fst (luaH_object_ref_class_sem idx s));
  respects_class_index : forall s, keeps P s (fst (luaH_class_index_sem s));
  respects_class_newindex :
    forall s, keeps P s (fst (luaH_class_newindex_sem s));
  respects_emit_signal :
    forall oud name nargs s,
      keeps P s (fst (luaH_object_emit_signal_sem oud name nargs s));
  respects_object_push :
    forall p s, keeps P s (fst (luaH_object_push_sem p s));
  respects_constructor : forall wc w s, keeps P s (constructor_sem wc w s);
  respects_destructor : forall f w s, keeps P s (destructor_sem f w s);
  respects_index : forall f tok s, keeps P s (fst (index_sem f tok s));
  respects_newindex : forall f tok s, keeps P s (fst (newindex_sem f tok s))
}.

(** A program of [M] that keeps [P], whatever its outcome. *)
Definition keeping (P : widget_t -> Prop) {A} (m : M LuaVM A) : Prop :=
  forall σ, keeps P (fst σ) (fst (fst (m σ))).

(** The state in which [luaH_widget_new] takes the reference of [w], which
    [luaH_checkudata] found as [wd] in [s2]. *)
Definition unparented (w : ptr) (wd : widget_t) (s2 : lua_State LuaVM) :
    lua_State LuaVM :=
  on_vm (lua_pushvalue_sem (-1))
    (assign w (with_window None) (with_parent None wd)
       (assign w (with_parent None) wd s2)).
End Calls.

(** * Properties *)

Section Proofs.
Context {LuaVM : Type} `{!Runtime LuaVM}.
Implicit Types (s : lua_State LuaVM) (σ : world LuaVM).

(** ** Type names are kept *)

Lemma keeps_types_refl s : keeps_types s s.
Proof. intros w wd t Hw Ht. eauto. Qed.

Lemma keeps_types_trans s1 s2 s3 :
  keeps_types s1 s2 -> keeps_types s2 s3 -> keeps_types s1 s3.
Proof.
  intros H12 H23 w wd t Hw Ht.
  destruct (H12 w wd t Hw Ht) as (wd2 & Hw2 & Ht2).
  exact (H23 w wd2 t Hw2 Ht2).
Qed.

Lemma keeps_types_same_widgets s s' :
  widgets s' = widgets s -> keeps_types s s'.
Proof. intros E w wd t Hw Ht. rewrite E. eauto. Qed.

Lemma preserves_ret {A} (a : A) : preserves (ret (LuaVM:=LuaVM) a).
Proof. intros σ. apply keeps_types_refl. Qed.

Lemma preserves_bind {A B} (m : M LuaVM A) (k : A -> M LuaVM B) :
  preserves m -> (forall a, preserves (k a)) -> preserves (bind m k).
Proof.
  intros Hm Hk σ. unfold bind.
  specialize (Hm σ). destruct (m σ) as [σ' [a|e|]]; simpl in *; auto.
  eapply keeps_types_trans; [exact Hm | apply Hk].
Qed.

Lemma preserves_call {A} ev (f : lua_State LuaVM -> lua_State LuaVM * res A) :
  (forall s, keeps_types s (fst (f s))) -> preserves (call ev f).
Proof. intros Hf σ. apply Hf. Qed.

Lemma preserves_load w : preserves (load (LuaVM:=LuaVM) w).
Proof.
  intros σ. unfold load.
  destruct (widgets σ.1 !! w); apply keeps_types_refl.
Qed.

Lemma preserves_load_window p : preserves (load_window (LuaVM:=LuaVM) p).
Proof.
  intros σ. unfold load_window.
  destruct (windows σ.1 !! p); apply keeps_types_refl.
Qed.

Lemma preserves_store w (f : widget_t -> widget_t) :
  (forall wd, type (f wd) = type wd) ->
  preserves (store (LuaVM:=LuaVM) w f).
Proof.
  intros Hf σ. unfold store.
  destruct (widgets σ.1 !! w) as [wd|] eqn:Hw; simpl;
    [|apply keeps_types_refl].
  intros w' wd' t Hw' Ht. cbn.
  destruct (decide (w = w')) as [->|Hne].
  - rewrite lookup_insert_eq. exists (f wd). split; [done|].
    rewrite Hf. congruence.
  - rewrite lookup_insert_ne by done. eauto.
Qed.

Lemma preserves_vm (f : LuaVM -> LuaVM) s : keeps_types s (on_vm f s).
Proof. by apply keeps_types_same_widgets. Qed.

Lemma preserves_vm_res {A} (f : LuaVM -> LuaVM * res A) s :
  keeps_types s (fst (on_vm_res f s)).
Proof. by apply keeps_types_same_widgets. Qed.

Lemma preserves_gc : type_frame -> preserves luaH_widget_gc.
Proof.
  intros HF. unfold luaH_widget_gc.
  apply preserves_bind; [apply preserves_call, HF|]. intros widget.
  apply preserves_bind; [apply preserves_load|]. intros wd.
  apply preserves_bind; [|intros _; apply preserves_call, HF].
  destruct (destructor wd); [|apply preserves_ret].
  apply preserves_call. intros s. apply HF.
Qed.

Lemma preserves_new : type_frame -> preserves luaH_widget_new.
Proof.
  intros HF. unfold luaH_widget_new.
  apply preserves_bind; [apply preserves_call, HF|]. intros _.
  apply preserves_bind; [apply preserves_call, HF|]. intros w.
  apply preserves_bind; [by apply preserves_store|]. intros _.
  apply preserves_bind; [by apply preserves_store|]. intros _.
  apply preserves_bind; [apply preserves_call; intros s; apply preserves_vm|].
  intros _.
  apply preserves_bind; [apply preserves_call, HF|]. intros r.
  apply preserves_bind; [by apply preserves_store|]. intros _.
  apply preserves_ret.
Qed.

Lemma preserves_index : type_frame -> preserves luaH_widget_index.
Proof.
  intros HF. unfold luaH_widget_index.
  apply preserves_bind; [apply preserves_call, preserves_vm_res|]. intros prop.
  apply preserves_bind; [apply preserves_call, HF|]. intros n.
  destruct (negb (n =? 0)); [apply preserves_ret|].
  apply preserves_bind; [apply preserves_call, HF|]. intros widget.
  apply preserves_bind; [apply preserves_load|]. intros wd.
  destruct (index wd); [apply preserves_call, HF|apply preserves_ret].
Qed.

Lemma preserves_newindex : type_frame -> preserves luaH_widget_newindex.
Proof.
  intros HF. unfold luaH_widget_newindex.
  apply preserves_bind; [apply preserves_call, preserves_vm_res|]. intros prop.
  apply preserves_bind; [apply preserves_call, HF|]. intros _.
  apply preserves_bind; [apply preserves_call, HF|]. intros widget.
  apply preserves_bind; [apply preserves_load|]. intros wd.
  destruct (newindex wd); [apply preserves_call, HF|apply preserves_ret].
Qed.

Lemma preserves_get_type w : preserves (luaH_widget_get_type w).
Proof.
  unfold luaH_widget_get_type.
  apply preserves_bind; [apply preserves_load|]. intros wd.
  destruct (type wd) as [t|]; [|apply preserves_ret].
  apply preserves_bind; [|intros _; apply preserves_ret].
  apply preserves_call. intros s. apply preserves_vm.
Qed.

Lemma preserves_get_parent w :
  type_frame -> preserves (luaH_widget_get_parent w).
Proof.
  intros HF. unfold luaH_widget_get_parent.
  apply preserves_bind; [apply preserves_load|]. intros wd.
  destruct (parent wd) as [p|].
  - apply preserves_bind; [apply preserves_load|]. intros pw.
    apply preserves_bind; [apply preserves_call, HF|]. intros _.
    apply preserves_ret.
  - destruct (window wd) as [q|]; [|apply preserves_ret].
    apply preserves_bind; [apply preserves_load_window|]. intros wn.
    apply preserves_bind; [apply preserves_call, HF|]. intros _.
    apply preserves_ret.
Qed.

(** ** The outcomes of [luaH_widget_set_type] *)

Lemma set_type_outcomes s w :
  set_type_outcome s w (run (luaH_widget_set_type w) s).
Proof.
  unfold run, luaH_widget_set_type, bind, load. simpl.
  destruct (widgets s !! w) as [wd|] eqn:Hw; [|by constructor].
  destruct (type wd) as [t0|] eqn:Ht; simpl; [by econstructor|].
  unfold on_vm_res. fold (name_of s) (named s).
  destruct (name_of s) as [t|e|] eqn:Hn.
  2,3: pose proof (Outcome_no_name s w wd Hw Ht) as Hout;
       rewrite Hn in Hout; by apply Hout.
  destruct (constructor_of_token (l_tokenize t)) as [wc|] eqn:Hc; simpl;
    [|by econstructor].
  unfold store, returns. simpl. fold (constructed wc w s).
  destruct (widgets (constructed wc w s) !! w) as [wd1|] eqn:H1; simpl;
    [|by econstructor].
  fold (typed wc w t wd1 s) (emit_init (typed wc w t wd1 s)).
  pose proof (Outcome_assigned s w wd t wc wd1 Hw Ht Hn Hc H1) as Hout.
  by destruct (emit_init (typed wc w t wd1 s)) as [s3 [[]|e|]].
Qed.

Lemma set_type_already s w wd t :
  widgets s !! w = Some wd -> type wd = Some t ->
  run (luaH_widget_set_type w) s =
    ((s, [Call_luaL_error fmt_already [t]]), Throw (fmt_already, [t])).
Proof.
  intros Hw Ht. unfold run, luaH_widget_set_type, bind, load. simpl.
  by rewrite Hw, Ht.
Qed.

Lemma set_type_assigned s w t wc wd1 :
  assignment s w t wc wd1 ->
  run (luaH_widget_set_type w) s =
    ((fst (emit_init (typed wc w t wd1 s)),
      [Call_luaL_checklstring (-1); Call_constructor wc w;
       Call_luaH_object_emit_signal (-3) "init" 0]),
     and_return (snd (emit_init (typed wc w t wd1 s))) 0).
Proof.
  intros ((wd & Hw & Ht) & Hn & Hc & H1).
  destruct (set_type_outcomes s w); congruence.
Qed.

(** ** One type assignment per widget *)

Lemma keeps_types_assign_untyped s s1 w wd wd1 f :
  widgets s !! w = Some wd -> type wd = None ->
  keeps_types s s1 -> keeps_types s (assign w f wd1 s1).
Proof.
  intros Hw Ht H1 w' wd' t Hw' Ht'. cbn.
  destruct (decide (w = w')) as [->|Hne].
  - congruence.
  - rewrite lookup_insert_ne by done. exact (H1 w' wd' t Hw' Ht').
Qed.

Lemma keeps_types_set_type s w :
  type_frame -> keeps_types s (state_of (run (luaH_widget_set_type w) s)).
Proof.
  intros HF.
  assert (Hv : keeps_types s (named s)) by by apply keeps_types_same_widgets.
  assert (H1 : forall wc, keeps_types s (constructed wc w s))
    by (intros wc; eapply keeps_types_trans; [exact Hv|apply HF]).
  destruct (set_type_outcomes s w); unfold state_of; simpl;
    try apply keeps_types_refl; try done.
  eapply keeps_types_trans; [|apply HF].
  by eapply keeps_types_assign_untyped.
Qed.

Lemma keeps_types_run_op o s :
  type_frame -> keeps_types s (state_of (run (run_op o) s)).
Proof.
  intros HF. destruct o as [| | | |w|w|w]; simpl.
  - apply (preserves_gc HF (s, [])).
  - apply (preserves_new HF (s, [])).
  - apply (preserves_index HF (s, [])).
  - apply (preserves_newindex HF (s, [])).
  - by apply keeps_types_set_type.
  - apply (preserves_get_type w (s, [])).
  - apply (preserves_get_parent w HF (s, [])).
Qed.

(** C1.  The type of a widget is assigned at most once.  Provided the code
    outside [widget.c] leaves set type names alone, a type name that is set
    survives every sequence of operations of the widget class; and setting
    the type of a widget that has one raises at once: the state is the one
    before the call, and the only call made is the [luaL_error]. *)
Theorem type_assigned_at_most_once (HF : type_frame) :
  (forall os s, keeps_types s (run_ops os s)) /\
  (forall s w wd t,
     widgets s !! w = Some wd -> type wd = Some t ->
     run (luaH_widget_set_type w) s =
       ((s, [Call_luaL_error fmt_already [t]]), Throw (fmt_already, [t]))).
Proof.
  split.
  - induction os as [|o os IH]; intros s; simpl.
    + apply keeps_types_refl.
    + eapply keeps_types_trans; [by apply keeps_types_run_op | apply IH].
  - intros s w wd t Hw Ht. by apply set_type_already with wd.
Qed.

(** ** Dispatch on the type name *)

Lemma constructor_of_token_backends tok wc :
  constructor_of_token tok = Some wc <-> (tok, wc) ∈ backends.
Proof.
  unfold backends. rewrite !elem_of_cons, elem_of_nil. split.
  - destruct tok; simpl; intros [= <-]; tauto.
  - intros [H|[H|[H|[H|[H|[]]]]]]; by inversion H.
Qed.

Lemma constructor_of_token_unknown tok :
  constructor_of_token tok = None <-> tok ∉ known_types.
Proof.
  unfold known_types. rewrite !not_elem_of_cons. split.
  - destruct tok; simpl; intros [=]; repeat split; try done;
      apply not_elem_of_nil.
  - intros (? & ? & ? & ? & ? & _). by destruct tok.
Qed.

Lemma c_str_no_nul (name : string) :
  ~ In Ascii.zero (list_ascii_of_string (c_str name)).
Proof.
  induction name as [|c name IH]; simpl; [tauto|].
  destruct (Ascii.eqb c Ascii.zero) eqn:E; simpl; [tauto|].
  intros [->|Hin]; [|tauto]. by rewrite Ascii.eqb_refl in E.
Qed.

Lemma c_str_id (name : string) :
  ~ In Ascii.zero (list_ascii_of_string name) -> c_str name = name.
Proof.
  induction name as [|c name IH]; simpl; [done|]. intros Hno.
  destruct (Ascii.eqb c Ascii.zero) eqn:E.
  - apply Ascii.eqb_eq in E. tauto.
  - rewrite IH; [done|tauto].
Qed.

Ltac set_type_cases s w :=
  destruct (set_type_outcomes s w) as
    [H0|wd0 t0 H0 Ht0|wd0 H0 Ht0 Hn0|wd0 t0 H0 Ht0 Hn0 Hc0
    |wd0 t0 wc0 H0 Ht0 Hn0 Hc0 H10|wd0 t0 wc0 wd10 H0 Ht0 Hn0 Hc0 H10];
  unfold result_of, log_of, state_of in *; simpl in *.

(** C2.  For a widget [w] of the store, setting the type ends in a Lua
    error exactly in four cases: [w] has a type already; the value on the
    stack is no string, and [luaL_checklstring] raises; the name on the
    stack is the name of none of the five widget types; a handler raises
    while [init] is emitted, after the assignment.  The first and the third
    are the errors of [luaH_widget_set_type] itself, raised through
    [luaL_error] as its last call, and they are raised in exactly these two
    cases.  On the unknown-name error, which prints the name as a C string,
    and on the error of [luaL_checklstring], no constructor has been called
    and the widget is as it was, its type unset.  An error that ends the
    call is one of its own, the one of [luaL_checklstring], or the one
    raised during the emission. *)
Theorem set_type_raises_iff s w wd :
  widgets s !! w = Some wd ->
  let out := run (luaH_widget_set_type w) s in
  ((exists e, result_of out = Throw e) <->
     is_Some (type wd) \/
     (exists e, name_of s = Throw e) \/
     (exists t, name_of s = Ok t /\ l_tokenize t ∉ known_types) \/
     (exists t wc wd1 e,
        assignment s w t wc wd1 /\
        snd (emit_init (typed wc w t wd1 s)) = Throw e)) /\
  (raises_error out <->
     is_Some (type wd) \/
     exists t, name_of s = Ok t /\ l_tokenize t ∉ known_types) /\
  (forall t,
     type wd = None -> name_of s = Ok t -> l_tokenize t ∉ known_types ->
     result_of out = Throw (fmt_unknown, [c_str t]) /\
     List.filter is_constructor_call (log_of out) = [] /\
     widgets (state_of out) !! w = Some wd /\ type wd = None) /\
  (forall e,
     type wd = None -> name_of s = Throw e ->
     result_of out = Throw e /\
     log_of out = [Call_luaL_checklstring (-1)] /\
     widgets (state_of out) !! w = Some wd) /\
  (forall e,
     result_of out = Throw e ->
     raises_error out \/
     name_of s = Throw e \/
     exists t wc wd1,
       assignment s w t wc wd1 /\
       snd (emit_init (typed wc w t wd1 s)) = Throw e).
Proof.
  intros Hw out. subst out.
  assert (Hprov : forall e,
    result_of (run (luaH_widget_set_type w) s) = Throw e ->
    raises_error (run (luaH_widget_set_type w) s) \/
    name_of s = Throw e \/
    exists t wc wd1,
      assignment s w t wc wd1 /\
      snd (emit_init (typed wc w t wd1 s)) = Throw e).
  { intros e. unfold raises_error. set_type_cases s w; try discriminate.
    - intros _. left. by exists fmt_already, [t0].
    - intros He. right. left.
      by destruct (name_of s) as [t|e'|]; simplify_eq/=.
    - intros _. left. by exists fmt_unknown, [c_str t0].
    - intros He. right. right. exists t0, wc0, wd10.
      split; [unfold assignment; eauto 10|].
      by destruct (emit_init (typed wc0 w t0 wd10 s)) as [s3 [[]|e'|]];
        simplify_eq/=. }
  assert (Hown : raises_error (run (luaH_widget_set_type w) s) <->
    is_Some (type wd) \/
    exists t, name_of s = Ok t /\ l_tokenize t ∉ known_types).
  { unfold raises_error. split.
    - intros (fmt & args & Hr & Hl).
      set_type_cases s w; try discriminate.
      + left. exists t0. congruence.
      + right. exists t0. split; [done|].
        by apply constructor_of_token_unknown.
    - intros [[t1 Ht1]|(t & Hn & Hc)].
      + rewrite (set_type_already s w wd t1) by done.
        by exists fmt_already, [t1].
      + apply constructor_of_token_unknown in Hc.
        set_type_cases s w; try congruence.
        * by exists fmt_already, [t0].
        * by exists fmt_unknown, [c_str t0]. }
  split; [|split; [exact Hown|split; [|split; [|exact Hprov]]]].
  - split.
    + intros [e He]. destruct (Hprov e He) as [Hr|[Hn|(t & wc & wd1 & Ha)]].
      * apply Hown in Hr as [Ht|Hu]; auto.
      * right. left. eauto.
      * right. right. right. destruct Ha. eauto 10.
    + intros [[t1 Ht1]|[[e Hn]|[(t & Hn & Hc)|(t & wc & wd1 & e & Ha & He)]]].
      * rewrite (set_type_already s w wd t1) by done. eauto.
      * set_type_cases s w; try congruence; eauto.
        rewrite Hn. simpl. eauto.
      * assert (Hr : raises_error (run (luaH_widget_set_type w) s))
          by (apply Hown; eauto).
        destruct Hr as (fmt & args & Hr & _). eauto.
      * rewrite (set_type_assigned s w t wc wd1 Ha).
        unfold result_of. simpl. rewrite He. simpl. eauto.
  - intros t Ht Hn Hc. apply constructor_of_token_unknown in Hc.
    set_type_cases s w; try congruence.
    repeat split; congruence.
  - intros e Ht Hn.
    set_type_cases s w; try congruence.
    rewrite Hn. simpl. repeat split; congruence.
Qed.

(** C3.  The type assignment dispatches over exactly five backends: the
    [switch] maps the tokens webview, notebook, textarea, hbox and vbox to
    [widget_webview], [widget_notebook], [widget_textarea], [widget_hbox]
    and [widget_vbox] and no other token to a constructor; and once the
    widget is found untyped and the name [t] is read, the constructor calls
    of [luaH_widget_set_type] are the one call of the backend of [t] on the
    widget, or none when [t] names no backend. *)
Theorem set_type_dispatch :
  (forall tok wc,
     constructor_of_token tok = Some wc <-> (tok, wc) ∈ backends) /\
  (forall tok, constructor_of_token tok = None <-> tok ∉ known_types) /\
  (forall s w wd t,
     widgets s !! w = Some wd -> type wd = None -> name_of s = Ok t ->
     let calls :=
       List.filter is_constructor_call
                   (log_of (run (luaH_widget_set_type w) s)) in
     (forall wc, (l_tokenize t, wc) ∈ backends ->
                 calls = [Call_constructor wc w]) /\
     (l_tokenize t ∉ known_types -> calls = [])).
Proof.
  split; [exact constructor_of_token_backends|].
  split; [exact constructor_of_token_unknown|].
  intros s w wd t Hw Ht Hn calls. subst calls.
  rewrite <- constructor_of_token_unknown.
  setoid_rewrite <- constructor_of_token_backends.
  destruct (set_type_outcomes s w) as
    [H0|wd0 t0 H0 Ht0|wd0 H0 Ht0 Hn'|wd0 t' H0 Ht0 Hn' Hc'
    |wd0 t' wc' H0 Ht0 Hn' Hc' H1|wd0 t' wc' wd1 H0 Ht0 Hn' Hc' H1];
    try congruence; unfold log_of; simpl.
  - split; [intros wc Hc|]; congruence.
  - split; [intros wc Hc|]; congruence.
  - split; [intros wc Hc|]; congruence.
Qed.

(** ** What an assignment leaves in the widget *)

Lemma get_type_run s w wd :
  widgets s !! w = Some wd ->
  run (luaH_widget_get_type w) s =
    match type wd with
    | Some t =>
        ((on_vm (lua_pushstring_sem t) s, [Call_lua_pushstring t]), Ok 1)
    | None => ((s, []), Ok 0)
    end.
Proof.
  intros Hw. unfold run, luaH_widget_get_type, bind, load. simpl.
  rewrite Hw. by destruct (type wd).
Qed.

Lemma typed_lookup wc w t wd1 s :
  widgets (typed wc w t wd1 s) !! w =
    Some (with_type (Some (g_strdup t)) wd1).
Proof. unfold typed, assign. cbn. apply lookup_insert_eq. Qed.

Lemma set_type_ok_assignment s w n :
  result_of (run (luaH_widget_set_type w) s) = Ok n ->
  exists t wc wd1, assignment s w t wc wd1.
Proof.
  destruct (set_type_outcomes s w) as
    [H0|wd0 t0 H0 Ht0|wd0 H0 Ht0 Hn|wd0 t H0 Ht0 Hn Hc
    |wd0 t wc H0 Ht0 Hn Hc H1|wd0 t wc wd1 H0 Ht0 Hn Hc H1];
    unfold result_of; simpl; try discriminate.
  - destruct (name_of s) as [t| |] eqn:E; try discriminate. by destruct (Hn t).
  - intros _. exists t, wc, wd1. unfold assignment. eauto 10.
Qed.

(** C4.  Suppose the handlers of the signal [init] leave the type and the
    three handler pointers of [w] as they are.  After a type assignment
    that returns, [w] holds as its type the copy [g_strdup] made of the
    given name, which has no NUL byte and is the name itself when that has
    none, and its index, newindex and destructor pointers are the ones the
    constructor of that name's backend left in it; reading the type then
    pushes the stored copy and returns one value.  Reading the type of a widget pushes its
    type name when it has one and returns no value when it has none. *)
Theorem set_type_installs s w :
  (forall s0 wd0,
     widgets s0 !! w = Some wd0 ->
     exists wd',
       widgets (fst (emit_init s0)) !! w = Some wd' /\
       type wd' = type wd0 /\
       index wd' = index wd0 /\
       newindex wd' = newindex wd0 /\
       destructor wd' = destructor wd0) ->
  (forall n,
     let out := run (luaH_widget_set_type w) s in
     result_of out = Ok n ->
     exists t wc wd1 wd',
       assignment s w t wc wd1 /\
       widgets (state_of out) !! w = Some wd' /\
       type wd' = Some (g_strdup t) /\
       ~ In Ascii.zero (list_ascii_of_string (g_strdup t)) /\
       (~ In Ascii.zero (list_ascii_of_string t) -> type wd' = Some t) /\
       index wd' = index wd1 /\
       newindex wd' = newindex wd1 /\
       destructor wd' = destructor wd1 /\
       run (luaH_widget_get_type w) (state_of out) =
         ((on_vm (lua_pushstring_sem (g_strdup t)) (state_of out),
           [Call_lua_pushstring (g_strdup t)]), Ok 1)) /\
  (forall s0 wd0,
     widgets s0 !! w = Some wd0 ->
     run (luaH_widget_get_type w) s0 =
       match type wd0 with
       | Some t =>
           ((on_vm (lua_pushstring_sem t) s0, [Call_lua_pushstring t]), Ok 1)
       | None => ((s0, []), Ok 0)
       end).
Proof.
  intros Hframe. split; [|intros s0 wd0; apply get_type_run].
  intros n out Hok. subst out.
  destruct (set_type_ok_assignment s w n Hok) as (t & wc & wd1 & Ha).
  rewrite (set_type_assigned s w t wc wd1 Ha). unfold state_of. simpl.
  destruct (Hframe (typed wc w t wd1 s) _ (typed_lookup wc w t wd1 s))
    as (wd' & Hw' & Ht & Hi & Hn & Hd).
  exists t, wc, wd1, wd'. simpl in *.
  split; [done|]. split; [exact Hw'|]. split; [exact Ht|].
  split; [apply c_str_no_nul|].
  split; [intros Hno; rewrite Ht; unfold g_strdup; by rewrite c_str_id|].
  repeat (split; [done|]).
  rewrite (get_type_run _ w _ Hw'). by rewrite Ht.
Qed.

(** ** The signal [init] *)

(** C10.  An assignment that goes through (the widget is untyped, the name
    on the stack names a backend, the constructor leaves the widget in
    place) makes three calls: it reads the name, runs the constructor, and
    last emits [init] on the object at stack index -3, once, from the state
    in which the constructor has run and the name is stored in the widget.
    Every assignment that returns has gone through.  Any other assignment,
    and so every one that raises an error of its own, emits nothing. *)
Theorem init_signal_once s w :
  let out := run (luaH_widget_set_type w) s in
  let signals := List.filter is_init_signal (log_of out) in
  (forall t wc wd1,
     assignment s w t wc wd1 ->
     log_of out = [Call_luaL_checklstring (-1); Call_constructor wc w;
                   Call_luaH_object_emit_signal (-3) "init" 0] /\
     signals = [Call_luaH_object_emit_signal (-3) "init" 0] /\
     widgets (typed wc w t wd1 s) !! w =
       Some (with_type (Some (g_strdup t)) wd1) /\
     state_of out = fst (emit_init (typed wc w t wd1 s)) /\
     result_of out = and_return (snd (emit_init (typed wc w t wd1 s))) 0) /\
  (forall n, result_of out = Ok n ->
             exists t wc wd1, assignment s w t wc wd1) /\
  ((forall t wc wd1, ~ assignment s w t wc wd1) -> signals = []) /\
  (raises_error out -> signals = []).
Proof.
  intros out signals. subst out signals. repeat split.
  - by rewrite (set_type_assigned s w t wc wd1).
  - by rewrite (set_type_assigned s w t wc wd1).
  - apply typed_lookup.
  - by rewrite (set_type_assigned s w t wc wd1).
  - by rewrite (set_type_assigned s w t wc wd1).
  - intros n. apply set_type_ok_assignment.
  - intros Hno.
    destruct (set_type_outcomes s w) as
      [H0|wd0 t0 H0 Ht0|wd0 H0 Ht0 Hn|wd0 t H0 Ht0 Hn Hc
      |wd0 t wc H0 Ht0 Hn Hc H1|wd0 t wc wd1 H0 Ht0 Hn Hc H1];
      try done.
    destruct (Hno t wc wd1). unfold assignment. eauto 10.
  - intros (fmt & args & Hr & Hl). revert Hr Hl.
    destruct (set_type_outcomes s w); unfold result_of, log_of; simpl;
      done.
Qed.

(** ** Collection *)

(** C6.  Collecting the widget [widget] found at stack index 1: when its
    destructor pointer is [d], the destructor is called on the widget, then
    [luaH_object_gc] runs from the state the destructor left; when the
    pointer is null, no destructor is called and [luaH_object_gc] runs from
    the state as it was.  Either way the call returns what [luaH_object_gc]
    returns.  No run calls a destructor other than the one stored in the
    widget at stack index 1. *)
Theorem gc_destructor_first s :
  (forall s1 widget wd,
     luaH_checkudata_sem 1 s = (s1, Ok widget) ->
     widgets s1 !! widget = Some wd ->
     run luaH_widget_gc s =
       match destructor wd with
       | Some d =>
           ((fst (luaH_object_gc_sem (destructor_sem d widget s1)),
             [Call_luaH_checkudata 1; Call_destructor d widget;
              Call_luaH_object_gc]),
            snd (luaH_object_gc_sem (destructor_sem d widget s1)))
       | None =>
           ((fst (luaH_object_gc_sem s1),
             [Call_luaH_checkudata 1; Call_luaH_object_gc]),
            snd (luaH_object_gc_sem s1))
       end) /\
  (forall d w,
     In (Call_destructor d w) (log_of (run luaH_widget_gc s)) ->
     exists s1 wd,
       luaH_checkudata_sem 1 s = (s1, Ok w) /\
       widgets s1 !! w = Some wd /\ destructor wd = Some d).
Proof.
  split.
  - intros s1 widget wd Hu Hw.
    unfold run, luaH_widget_gc, bind, load. simpl.
    rewrite Hu. simpl. rewrite Hw.
    by destruct (destructor wd) as [d|].
  - intros d w. unfold run, luaH_widget_gc, bind, load, log_of. simpl.
    destruct (luaH_checkudata_sem 1 s) as [s1 [widget|e|]] eqn:Hu; simpl;
      try (intuition discriminate).
    destruct (widgets s1 !! widget) as [wd|] eqn:Hw; simpl;
      try (intuition discriminate).
    destruct (destructor wd) as [d'|] eqn:Hd; simpl.
    + destruct (luaH_object_gc_sem (destructor_sem d' widget s1))
        as [s2 [n|e|]]; simpl;
        intros [Hin|[Hin|[Hin|[]]]]; try discriminate;
        injection Hin as <- <-; eauto.
    + destruct (luaH_object_gc_sem s1) as [s2 [n|e|]]; simpl;
        intuition discriminate.
Qed.

(** ** Construction *)

Lemma bind_ok_inv {A B} (m : M LuaVM A) (k : A -> M LuaVM B) σ σ2 b :
  bind m k σ = (σ2, Ok b) ->
  exists a σ1, m σ = (σ1, Ok a) /\ k a σ1 = (σ2, Ok b).
Proof.
  unfold bind. destruct (m σ) as [σ1 [a|e|]]; try discriminate. eauto.
Qed.

Lemma call_ok_inv {A} ev (f : lua_State LuaVM -> lua_State LuaVM * res A)
    σ σ1 a :
  call ev f σ = (σ1, Ok a) ->
  f (fst σ) = (fst σ1, Ok a) /\ snd σ1 = snd σ ++ [ev].
Proof.
  unfold call. destruct (f σ.1) as [s1 r]. simpl. by intros [= <- ->].
Qed.

Lemma store_ok_inv w (f : widget_t -> widget_t) σ σ1 u :
  store w f σ = (σ1, Ok u) ->
  exists wd, widgets (fst σ) !! w = Some wd /\
             σ1 = (assign w f wd (fst σ), snd σ).
Proof.
  unfold store. destruct (widgets σ.1 !! w) as [wd|]; [|discriminate].
  intros [= <-]. eauto.
Qed.

(** C7.  Suppose [luaH_object_ref_class] leaves the widget records alone.
    When [luaH_widget_new] returns, it returns one value; the widget is the
    object [w] that [luaH_class_new] left on top of the stack, and in the
    final state [w] has no parent, no window, and in its [ref] field the
    reference [r] that [luaH_object_ref_class] returned for it. *)
Theorem new_widget_fields s n :
  (forall idx s0,
     widgets (fst (luaH_object_ref_class_sem idx s0)) = widgets s0) ->
  let out := run luaH_widget_new s in
  result_of out = Ok n ->
  n = 1 /\
  log_of out = [Call_luaH_class_new; Call_luaH_checkudata (-1);
                Call_lua_pushvalue (-1); Call_luaH_object_ref_class (-1)] /\
  exists s1 n1 s2 w wd s4 r wd',
    luaH_class_new_sem s = (s1, Ok n1) /\
    luaH_checkudata_sem (-1) s1 = (s2, Ok w) /\
    widgets s2 !! w = Some wd /\
    luaH_object_ref_class_sem (-1)
      (on_vm (lua_pushvalue_sem (-1))
         (assign w (with_window None) (with_parent None wd)
            (assign w (with_parent None) wd s2))) = (s4, Ok r) /\
    widgets (state_of out) !! w = Some wd' /\
    parent wd' = None /\ window wd' = None /\ ref wd' = r.
Proof.
  intros Hframe out. unfold result_of, log_of, state_of.
  destruct out as [σ8 r8] eqn:Hout. simpl. intros ->.
  subst out. unfold run, luaH_widget_new in Hout.
  apply bind_ok_inv in Hout as (n1 & σ1 & Hnew & Hout).
  apply call_ok_inv in Hnew as [Hnew Hl1].
  apply bind_ok_inv in Hout as (w & σ2 & Hu & Hout).
  apply call_ok_inv in Hu as [Hu Hl2].
  apply bind_ok_inv in Hout as (u3 & σ3 & Hp & Hout).
  apply store_ok_inv in Hp as (wd & Hw & ->).
  apply bind_ok_inv in Hout as (u4 & σ4 & Hq & Hout).
  apply store_ok_inv in Hq as (wd3 & Hw3 & ->).
  apply bind_ok_inv in Hout as (u5 & σ5 & Hv & Hout).
  apply call_ok_inv in Hv as [Hv Hl5].
  apply bind_ok_inv in Hout as (r & σ6 & Hr & Hout).
  apply call_ok_inv in Hr as [Hr Hl6].
  apply bind_ok_inv in Hout as (u7 & σ7 & Hs & Hout).
  apply store_ok_inv in Hs as (wd6 & Hw6 & ->).
  injection Hout as <- <-. simpl in *.
  unfold returns in Hv. injection Hv as Hv.
  assert (wd3 = with_parent None wd) as ->.
  { unfold assign in Hw3. cbn in Hw3. rewrite lookup_insert_eq in Hw3.
    congruence. }
  rewrite <- Hv in Hr.
  assert (wd6 = with_window None (with_parent None wd)) as ->.
  { pose proof (Hframe (-1) (on_vm (lua_pushvalue_sem (-1))
        (assign w (with_window None) (with_parent None wd)
           (assign w (with_parent None) wd σ2.1)))) as E.
    rewrite Hr in E. simpl in E. rewrite E in Hw6. cbn in Hw6.
    rewrite lookup_insert_eq in Hw6. congruence. }
  split; [done|]. split.
  { rewrite Hl6, Hl5, Hl2, Hl1. reflexivity. }
  exists σ1.1, n1, σ2.1, w, wd, σ6.1, r,
    (with_ref r (with_window None (with_parent None wd))).
  repeat split; try done.
  unfold assign. cbn. apply lookup_insert_eq.
Qed.

(** ** Property access *)

Lemma index_outcomes s : index_outcome s (run luaH_widget_index s).
Proof.
  unfold run, luaH_widget_index, bind, load. simpl.
  unfold on_vm_res. fold (prop_of s) (keyed s).
  destruct (prop_of s) as [prop|e|] eqn:Hp.
  2,3: pose proof (Index_no_key s) as Hout; rewrite Hp in Hout;
       by apply Hout.
  destruct (luaH_class_index_sem (keyed s)) as [s1 r1] eqn:Hi.
  destruct r1 as [n|e|]; simpl.
  2,3: pose proof (Index_class_stops s prop Hp) as Hout; rewrite Hi in Hout;
       by apply Hout.
  destruct (n =? 0) eqn:Hn; simpl.
  2: { apply Z.eqb_neq in Hn. by eapply Index_class. }
  apply Z.eqb_eq in Hn as ->.
  destruct (luaH_checkudata_sem 1 s1) as [s2 r2] eqn:Hu.
  destruct r2 as [widget|e|]; simpl.
  2,3: pose proof (Index_no_widget s prop s1 Hp Hi) as Hout;
       rewrite Hu in Hout; by apply Hout.
  destruct (widgets s2 !! widget) as [wd|] eqn:Hw; [|by eapply Index_dangling].
  destruct (index wd) as [f|] eqn:Hf; [|by eapply Index_no_handler].
  by eapply Index_backend.
Qed.

Lemma newindex_outcomes s : newindex_outcome s (run luaH_widget_newindex s).
Proof.
  unfold run, luaH_widget_newindex, bind, load. simpl.
  unfold on_vm_res. fold (prop_of s) (keyed s).
  destruct (prop_of s) as [prop|e|] eqn:Hp.
  2,3: pose proof (Newindex_no_key s) as Hout; rewrite Hp in Hout;
       by apply Hout.
  destruct (luaH_class_newindex_sem (keyed s)) as [s1 r1] eqn:Hi.
  destruct r1 as [n|e|]; simpl.
  2,3: pose proof (Newindex_class_stops s prop Hp) as Hout;
       rewrite Hi in Hout; by apply Hout.
  destruct (luaH_checkudata_sem 1 s1) as [s2 r2] eqn:Hu.
  destruct r2 as [widget|e|]; simpl.
  2,3: pose proof (Newindex_no_widget s prop s1 n Hp Hi) as Hout;
       rewrite Hu in Hout; by apply Hout.
  destruct (widgets s2 !! widget) as [wd|] eqn:Hw;
    [|by eapply Newindex_dangling].
  destruct (newindex wd) as [f|] eqn:Hf; [|by eapply Newindex_no_handler].
  by eapply Newindex_backend.
Qed.

(** Two outcomes of one run: equate what they share, or find the clash. *)
Ltac clash :=
  repeat match goal with
  | H : forall x, snd ?a <> Ok x, H' : ?a = (_, Ok ?y) |- _ =>
      exfalso; apply (H y); by rewrite H'
  | H : forall x, ?a <> Ok x, H' : ?a = Ok ?y |- _ =>
      exfalso; by apply (H y)
  | H : ?a = _, H' : ?a = _ |- _ => rewrite H in H'; simplify_eq
  end.

Ltac outcome_cases H :=
  destruct H; unfold log_of, result_of, state_of in *; simpl in *; clash.

(** C5.  On a read and on a write the property name [prop] at stack index 2
    is turned into the token [l_tokenize prop].  Whenever a backend index or
    newindex handler is called, it is called with that token; once the
    access reaches the widget [wd], a handler pointer [f] makes the access
    end in a call of [f] with the token, whose result is the result of the
    access, and a null pointer makes it return no value without a backend
    call. *)
Theorem handlers_receive_token s :
  (forall f tok,
     In (Call_index f tok) (log_of (run luaH_widget_index s)) ->
     exists prop, prop_of s = Ok prop /\ tok = l_tokenize prop) /\
  (forall f tok,
     In (Call_newindex f tok) (log_of (run luaH_widget_newindex s)) ->
     exists prop, prop_of s = Ok prop /\ tok = l_tokenize prop) /\
  (forall prop s1 s2 widget wd,
     prop_of s = Ok prop ->
     luaH_class_index_sem (keyed s) = (s1, Ok 0) ->
     luaH_checkudata_sem 1 s1 = (s2, Ok widget) ->
     widgets s2 !! widget = Some wd ->
     run luaH_widget_index s =
       match index wd with
       | Some f =>
           ((fst (index_sem f (l_tokenize prop) s2),
             [Call_luaL_checklstring 2; Call_luaH_class_index;
              Call_luaH_checkudata 1; Call_index f (l_tokenize prop)]),
            snd (index_sem f (l_tokenize prop) s2))
       | None =>
           ((s2, [Call_luaL_checklstring 2; Call_luaH_class_index;
                  Call_luaH_checkudata 1]),
            Ok 0)
       end) /\
  (forall prop s1 n s2 widget wd,
     prop_of s = Ok prop ->
     luaH_class_newindex_sem (keyed s) = (s1, Ok n) ->
     luaH_checkudata_sem 1 s1 = (s2, Ok widget) ->
     widgets s2 !! widget = Some wd ->
     run luaH_widget_newindex s =
       match newindex wd with
       | Some f =>
           ((fst (newindex_sem f (l_tokenize prop) s2),
             [Call_luaL_checklstring 2; Call_luaH_class_newindex;
              Call_luaH_checkudata 1; Call_newindex f (l_tokenize prop)]),
            snd (newindex_sem f (l_tokenize prop) s2))
       | None =>
           ((s2, [Call_luaL_checklstring 2; Call_luaH_class_newindex;
                  Call_luaH_checkudata 1]),
            Ok 0)
       end).
Proof.
  repeat split.
  - intros f tok Hin. outcome_cases (index_outcomes s);
      try (intuition discriminate).
    destruct Hin as [Hin|[Hin|[Hin|[Hin|[]]]]]; try discriminate.
    injection Hin as <- <-. eauto.
  - intros f tok Hin. outcome_cases (newindex_outcomes s);
      try (intuition discriminate).
    destruct Hin as [Hin|[Hin|[Hin|[Hin|[]]]]]; try discriminate.
    injection Hin as <- <-. eauto.
  - intros prop s1 s2 widget wd Hp Hi Hu Hw.
    outcome_cases (index_outcomes s); try done.
    all: match goal with H : index _ = _ |- _ => by rewrite H end.
  - intros prop s1 n s2 widget wd Hp Hi Hu Hw.
    outcome_cases (newindex_outcomes s); try done.
    all: match goal with H : newindex _ = _ |- _ => by rewrite H end.
Qed.

(** C8.  Reads and writes dispatch differently.  On a read, a class index
    that yields a result ends the access with that one value, the backend
    is not called; a backend index handler is called only after the class
    index has returned 0.  On a write, the class newindex is called as soon
    as the property name is read, and whatever it returns and whatever
    state it leaves, the newindex handler [f] of the widget is called after
    it. *)
Theorem read_write_asymmetry s :
  (forall prop s1 n,
     prop_of s = Ok prop ->
     luaH_class_index_sem (keyed s) = (s1, Ok n) -> n <> 0 ->
     run luaH_widget_index s =
       ((s1, [Call_luaL_checklstring 2; Call_luaH_class_index]), Ok 1)) /\
  (forall f tok,
     In (Call_index f tok) (log_of (run luaH_widget_index s)) ->
     exists s1, luaH_class_index_sem (keyed s) = (s1, Ok 0)) /\
  (forall prop,
     prop_of s = Ok prop ->
     In Call_luaH_class_newindex (log_of (run luaH_widget_newindex s))) /\
  (forall prop s1 n s2 widget wd f,
     prop_of s = Ok prop ->
     luaH_class_newindex_sem (keyed s) = (s1, Ok n) ->
     luaH_checkudata_sem 1 s1 = (s2, Ok widget) ->
     widgets s2 !! widget = Some wd ->
     newindex wd = Some f ->
     log_of (run luaH_widget_newindex s) =
       [Call_luaL_checklstring 2; Call_luaH_class_newindex;
        Call_luaH_checkudata 1; Call_newindex f (l_tokenize prop)]).
Proof.
  repeat split.
  - intros prop s1 n Hp Hi Hn.
    outcome_cases (index_outcomes s); done.
  - intros f tok Hin.
    outcome_cases (index_outcomes s); try (intuition discriminate).
    eauto.
  - intros prop Hp.
    outcome_cases (newindex_outcomes s); tauto.
  - intros prop s1 n s2 widget wd f Hp Hi Hu Hw Hf.
    outcome_cases (newindex_outcomes s); done.
Qed.

(** ** The parent property *)

(** C9.  Reading the parent of a widget [wd]: when the parent pointer is
    set, the handle of the parent (its [ref]) is pushed and one value is
    returned, whatever the window pointer is; when the parent pointer is
    null and the window pointer is set, the handle of the window is pushed
    and one value is returned; when both are null, nothing is pushed and no
    value is returned. *)
Theorem get_parent_precedence s w wd :
  widgets s !! w = Some wd ->
  (forall p pw,
     parent wd = Some p -> widgets s !! p = Some pw ->
     run (luaH_widget_get_parent w) s =
       ((fst (luaH_object_push_sem (ref pw) s),
         [Call_luaH_object_push (ref pw)]),
        and_return (snd (luaH_object_push_sem (ref pw) s)) 1)) /\
  (forall q wn,
     parent wd = None -> window wd = Some q -> windows s !! q = Some wn ->
     run (luaH_widget_get_parent w) s =
       ((fst (luaH_object_push_sem (win_ref wn) s),
         [Call_luaH_object_push (win_ref wn)]),
        and_return (snd (luaH_object_push_sem (win_ref wn) s)) 1)) /\
  (parent wd = None -> window wd = None ->
   run (luaH_widget_get_parent w) s = ((s, []), Ok 0)).
Proof.
  intros Hw. unfold run, luaH_widget_get_parent, bind, load, load_window.
  simpl. rewrite Hw. repeat split.
  - intros p pw -> Hp. simpl. rewrite Hp. simpl.
    by destruct (luaH_object_push_sem (ref pw) s) as [s1 [n|e|]].
  - intros q wn -> -> Hq. simpl. rewrite Hq. simpl.
    by destruct (luaH_object_push_sem (win_ref wn) s) as [s1 [n|e|]].
  - by intros -> ->.
Qed.
End Proofs.

(** * The properties on the small runtime *)

Lemma sample_frame : @type_frame _ Sample.runtime.
Proof.
  split; simpl.
  - intros ud s. unfold Sample.checkudata.
    destruct (Sample.slot ud (vm s)) as [[| |p]|]; try apply keeps_types_refl.
    destruct (widgets s !! p); apply keeps_types_refl.
  - intros s. apply keeps_types_refl.
  - intros s. unfold Sample.class_new.
    destruct (widgets s !! N.succ (N.of_nat (size (widgets s)))) eqn:E;
      [apply keeps_types_refl|].
    intros w wd t Hw Ht. cbn. exists wd. split; [|done].
    rewrite lookup_insert_ne; [done|]. intros <-. congruence.
  - intros idx s. unfold Sample.object_ref_class.
    destruct (Sample.slot idx (vm s)) as [[| |p]|];
      by apply keeps_types_same_widgets.
  - intros s. unfold Sample.class_index.
    destruct (Sample.slot 1 (vm s)) as [[| |p]|]; try apply keeps_types_refl.
    destruct (Sample.slot 2 (vm s)) as [[|k|]|]; try apply keeps_types_refl.
    destruct (Sample.tokenize k); try apply keeps_types_refl.
    destruct (widgets s !! p) as [wd|]; try apply keeps_types_refl.
    destruct (type wd); by apply keeps_types_same_widgets.
  - intros s. apply keeps_types_refl.
  - intros oud name nargs s. apply keeps_types_refl.
  - intros p s. by apply keeps_types_same_widgets.
  - intros wc w s w' wd t Hw Ht. unfold Sample.construct. cbn.
    destruct (decide (w = w')) as [->|Hne].
    + rewrite lookup_alter_eq, Hw. simpl. eauto.
    + rewrite lookup_alter_ne by done. eauto.
  - intros f w s. apply keeps_types_refl.
  - intros f tok s. by apply keeps_types_same_widgets.
  - intros f tok s. apply keeps_types_refl.
Qed.

Lemma type_assigned_at_most_once_witness :
  keeps_types (Sample.accessing "uri")
    (run_ops [Op_set_type 1%N; Op_newindex; Op_new; Op_gc]
             (Sample.accessing "uri")) /\
  run (luaH_widget_set_type 1%N) (Sample.accessing "uri") =
    ((Sample.accessing "uri", [Call_luaL_error fmt_already ["webview"]]),
     Throw (fmt_already, ["webview"])).
Proof.
  destruct (type_assigned_at_most_once sample_frame) as [Hops Hset].
  split; [apply Hops|].
  apply (Hset (Sample.accessing "uri") 1%N Sample.webview "webview");
    reflexivity.
Defined.

Lemma set_type_raises_iff_witness :
  widgets (Sample.untyped "web") !! 1%N = Some Sample.blank /\
  raises_error (run (luaH_widget_set_type 1%N) (Sample.untyped "web")) /\
  result_of (run (luaH_widget_set_type 1%N) (Sample.untyped "web")) =
    Throw (fmt_unknown, ["web"]) /\
  widgets Sample.misnamed !! 1%N = Some Sample.blank /\
  (exists e,
     result_of (run (luaH_widget_set_type 1%N) Sample.misnamed) = Throw e) /\
  ~ raises_error (run (luaH_widget_set_type 1%N) Sample.misnamed).
Proof.
  assert (Hw : widgets (Sample.untyped "web") !! 1%N = Some Sample.blank)
    by reflexivity.
  assert (Hw' : widgets Sample.misnamed !! 1%N = Some Sample.blank)
    by reflexivity.
  assert (Hname : l_tokenize "web" ∉ known_types)
    by (apply constructor_of_token_unknown; reflexivity).
  destruct (set_type_raises_iff (Sample.untyped "web") 1%N Sample.blank Hw)
    as (_ & Hown & Hunknown & _).
  destruct (set_type_raises_iff Sample.misnamed 1%N Sample.blank Hw')
    as (Hany & Hown' & _).
  split; [exact Hw|]. split; [|split; [|split; [exact Hw'|split]]].
  - apply Hown. right. exists "web". split; [reflexivity|exact Hname].
  - apply (Hunknown "web"); [reflexivity|reflexivity|exact Hname].
  - apply Hany. right. left. by exists Sample.bad_argument.
  - intros Hr. apply Hown' in Hr as [[t Ht]|(t & Hn & _)]; discriminate.
Defined.

(** With an untyped widget and a value on the stack that is no string, the
    assignment ends in the error of [luaL_checklstring]: an error, although
    the widget has no type and no name is given that could be unknown. *)
Lemma set_type_raises_without_name :
  widgets Sample.misnamed !! 1%N = Some Sample.blank /\
  ~ ((exists e,
        result_of (run (luaH_widget_set_type 1%N) Sample.misnamed) = Throw e)
     <->
     (is_Some (type Sample.blank) \/
      exists t,
        name_of Sample.misnamed = Ok t /\ l_tokenize t ∉ known_types)).
Proof.
  split; [reflexivity|]. intros [Hraise _].
  destruct Hraise as [[t Ht]|(t & Hn & _)]; [|discriminate|discriminate].
  by exists Sample.bad_argument.
Qed.

Lemma set_type_dispatch_witness :
  List.filter is_constructor_call
    (log_of (run (luaH_widget_set_type 1%N) (Sample.untyped "hbox"))) =
    [Call_constructor widget_hbox 1%N] /\
  List.filter is_constructor_call
    (log_of (run (luaH_widget_set_type 1%N) (Sample.untyped "web"))) = [].
Proof.
  destruct (@set_type_dispatch _ Sample.runtime) as (Htable & Hnone & Hrun).
  split.
  - apply (Hrun (Sample.untyped "hbox") 1%N Sample.blank "hbox");
      try reflexivity.
    apply Htable. reflexivity.
  - apply (Hrun (Sample.untyped "web") 1%N Sample.blank "web");
      try reflexivity.
    apply Hnone. reflexivity.
Defined.

Lemma set_type_installs_witness :
  let out := run (luaH_widget_set_type 1%N) (Sample.untyped "webview") in
  result_of out = Ok 0 /\
  exists t wc wd1 wd',
    assignment (Sample.untyped "webview") 1%N t wc wd1 /\
    widgets (state_of out) !! 1%N = Some wd' /\
    type wd' = Some (g_strdup t) /\
    ~ In Ascii.zero (list_ascii_of_string (g_strdup t)) /\
    (~ In Ascii.zero (list_ascii_of_string t) -> type wd' = Some t) /\
    index wd' = index wd1 /\
    newindex wd' = newindex wd1 /\
    destructor wd' = destructor wd1 /\
    run (luaH_widget_get_type 1%N) (state_of out) =
      ((on_vm (lua_pushstring_sem (g_strdup t)) (state_of out),
        [Call_lua_pushstring (g_strdup t)]), Ok 1).
Proof.
  assert (Hframe : forall (s0 : lua_State (list Sample.lua_value)) wd0,
             widgets s0 !! 1%N = Some wd0 ->
             exists wd',
               widgets (fst (emit_init s0)) !! 1%N = Some wd' /\
               type wd' = type wd0 /\
               index wd' = index wd0 /\
               newindex wd' = newindex wd0 /\
               destructor wd' = destructor wd0)
    by (intros s0 wd0 Hw; by exists wd0).
  split; [reflexivity|].
  apply (proj1 (set_type_installs (Sample.untyped "webview") 1%N Hframe) 0).
  reflexivity.
Defined.

(** A name with a NUL byte is stored and printed up to that byte. *)
Example g_strdup_stops_at_nul :
  g_strdup ("hbox" +:+ String Ascii.zero "junk") = "hbox".
Proof. reflexivity. Qed.

Lemma handlers_receive_token_witness :
  run luaH_widget_index (Sample.accessing "uri") =
    ((Sample.push_state (Sample.LString "backend") (Sample.accessing "uri"),
      [Call_luaL_checklstring 2; Call_luaH_class_index;
       Call_luaH_checkudata 1; Call_index 11%N (l_tokenize "uri")]),
     Ok 1) /\
  run luaH_widget_newindex (Sample.accessing "uri") =
    ((Sample.accessing "uri",
      [Call_luaL_checklstring 2; Call_luaH_class_newindex;
       Call_luaH_checkudata 1; Call_newindex 12%N (l_tokenize "uri")]),
     Ok 0).
Proof.
  destruct (handlers_receive_token (Sample.accessing "uri"))
    as (_ & _ & Hread & Hwrite).
  split.
  - exact (Hread "uri" (Sample.accessing "uri") (Sample.accessing "uri")
                 1%N Sample.webview eq_refl eq_refl eq_refl eq_refl).
  - exact (Hwrite "uri" (Sample.accessing "uri") 0 (Sample.accessing "uri")
                  1%N Sample.webview eq_refl eq_refl eq_refl eq_refl).
Defined.

Lemma gc_destructor_first_witness :
  luaH_checkudata_sem 1 (Sample.accessing "uri") =
    (Sample.accessing "uri", Ok 1%N) /\
  widgets (Sample.accessing "uri") !! 1%N = Some Sample.webview /\
  run luaH_widget_gc (Sample.accessing "uri") =
    ((Sample.accessing "uri",
      [Call_luaH_checkudata 1; Call_destructor 13%N 1%N;
       Call_luaH_object_gc]),
     Ok 0).
Proof.
  split; [reflexivity|]. split; [reflexivity|].
  exact (proj1 (gc_destructor_first (Sample.accessing "uri"))
           (Sample.accessing "uri") 1%N Sample.webview eq_refl eq_refl).
Defined.

Lemma new_widget_fields_witness :
  let out := run luaH_widget_new (Sample.untyped "webview") in
  result_of out = Ok 1 /\
  exists w wd',
    widgets (state_of out) !! w = Some wd' /\
    parent wd' = None /\ window wd' = None /\ ref wd' = 2%N.
Proof.
  assert (Hframe : forall idx (s0 : lua_State (list Sample.lua_value)),
             widgets (fst (luaH_object_ref_class_sem idx s0)) = widgets s0).
  { intros idx s0. simpl. unfold Sample.object_ref_class.
    by destruct (Sample.slot idx (vm s0)) as [[| |p]|]. }
  split; [reflexivity|].
  destruct (new_widget_fields (Sample.untyped "webview") 1 Hframe eq_refl)
    as (_ & _ & s1 & n1 & s2 & w & wd & s4 & r & wd' & Hnew & Hu & Hw & Hr
        & Hw' & Hp & Hq & Href).
  exists w, wd'. repeat split; try done.
  rewrite Href. clear Hw' Hp Hq Href.
  vm_compute in Hnew. injection Hnew as <- <-.
  vm_compute in Hu. injection Hu as <- <-.
  vm_compute in Hw. injection Hw as <-.
  vm_compute in Hr. by injection Hr as _ <-.
Defined.

Lemma read_write_asymmetry_witness :
  run luaH_widget_index (Sample.accessing "type") =
    ((Sample.push_state (Sample.LString "webview") (Sample.accessing "type"),
      [Call_luaL_checklstring 2; Call_luaH_class_index]), Ok 1) /\
  log_of (run luaH_widget_newindex (Sample.accessing "type")) =
    [Call_luaL_checklstring 2; Call_luaH_class_newindex;
     Call_luaH_checkudata 1; Call_newindex 12%N (l_tokenize "type")].
Proof.
  split.
  - destruct (read_write_asymmetry (Sample.accessing "type"))
      as (Hread & _ & _ & _).
    by apply (Hread "type" _ 1).
  - destruct (read_write_asymmetry (Sample.accessing "type"))
      as (_ & _ & _ & Hwrite).
    exact (Hwrite "type" (Sample.accessing "type") 0 (Sample.accessing "type")
                  1%N Sample.webview 12%N
                  eq_refl eq_refl eq_refl eq_refl eq_refl).
Defined.

Lemma get_parent_precedence_witness :
  run (luaH_widget_get_parent 1%N) Sample.nested =
    ((Sample.push_state (Sample.LUserdata 7%N) Sample.nested,
      [Call_luaH_object_push 7%N]), Ok 1) /\
  run (luaH_widget_get_parent 2%N) Sample.nested =
    ((Sample.push_state (Sample.LUserdata 9%N) Sample.nested,
      [Call_luaH_object_push 9%N]), Ok 1) /\
  run (luaH_widget_get_parent 1%N) (Sample.accessing "parent") =
    ((Sample.accessing "parent", []), Ok 0).
Proof.
  split; [|split].
  - destruct (get_parent_precedence Sample.nested 1%N Sample.inner eq_refl)
      as (Hparent & _ & _).
    exact (Hparent 2%N Sample.outer eq_refl eq_refl).
  - destruct (get_parent_precedence Sample.nested 2%N Sample.outer eq_refl)
      as (_ & Hwindow & _).
    exact (Hwindow 3%N (mk_window 9%N) eq_refl eq_refl eq_refl).
  - destruct (get_parent_precedence (Sample.accessing "parent") 1%N
                Sample.webview eq_refl) as (_ & _ & Hnone).
    exact (Hnone eq_refl eq_refl).
Defined.

Lemma init_signal_once_witness :
  assignment (Sample.untyped "vbox") 1%N "vbox" widget_vbox
             (Sample.install widget_vbox Sample.blank) /\
  List.filter is_init_signal
    (log_of (run (luaH_widget_set_type 1%N) (Sample.untyped "vbox"))) =
    [Call_luaH_object_emit_signal (-3) "init" 0] /\
  List.filter is_init_signal
    (log_of (run (luaH_widget_set_type 1%N) (Sample.untyped "web"))) = [].
Proof.
  assert (Ha : assignment (Sample.untyped "vbox") 1%N "vbox" widget_vbox
                 (Sample.install widget_vbox Sample.blank)).
  { split; [by exists Sample.blank|]. by repeat split. }
  split; [exact Ha|]. split.
  - destruct (init_signal_once (Sample.untyped "vbox") 1%N)
      as (Hdone & _ & _ & _).
    by destruct (Hdone _ _ _ Ha) as (_ & Hsig & _).
  - destruct (init_signal_once (Sample.untyped "web") 1%N)
      as (_ & _ & _ & Hraise).
    apply Hraise. by exists fmt_unknown, ["web"].
Defined.

(** * Further properties of [widget.c] *)

Section Invariants.
Context {LuaVM : Type} `{!Runtime LuaVM}.
Context (P : widget_t -> Prop).
Implicit Types (s : lua_State LuaVM) (σ : world LuaVM).

Lemma keeps_refl s : keeps P s s.
Proof. intros w wd Hw HP. eauto. Qed.

Lemma keeps_trans s1 s2 s3 : keeps P s1 s2 -> keeps P s2 s3 -> keeps P s1 s3.
Proof.
  intros H12 H23 w wd Hw HP.
  destruct (H12 w wd Hw HP) as (wd2 & Hw2 & HP2).
  exact (H23 w wd2 Hw2 HP2).
Qed.

Lemma keeps_same_widgets s s' : widgets s' = widgets s -> keeps P s s'.
Proof. intros E w wd Hw HP. rewrite E. eauto. Qed.

Lemma keeping_ret {A} (a : A) : keeping P (ret (LuaVM:=LuaVM) a).
Proof. intros σ. apply keeps_refl. Qed.

Lemma keeping_bind {A B} (m : M LuaVM A) (k : A -> M LuaVM B) :
  keeping P m -> (forall a, keeping P (k a)) -> keeping P (bind m k).
Proof.
  intros Hm Hk σ. unfold bind.
  specialize (Hm σ). destruct (m σ) as [σ' [a|e|]]; simpl in *; auto.
  eapply keeps_trans; [exact Hm | apply Hk].
Qed.

Lemma keeping_call {A} ev (f : lua_State LuaVM -> lua_State LuaVM * res A) :
  (forall s, keeps P s (fst (f s))) -> keeping P (call ev f).
Proof. intros Hf σ. apply Hf. Qed.

Lemma keeping_load w : keeping P (load (LuaVM:=LuaVM) w).
Proof.
  intros σ. unfold load. destruct (widgets σ.1 !! w); apply keeps_refl.
Qed.

Lemma keeping_load_window p : keeping P (load_window (LuaVM:=LuaVM) p).
Proof.
  intros σ. unfold load_window. destruct (windows σ.1 !! p); apply keeps_refl.
Qed.

Lemma keeping_store w (f : widget_t -> widget_t) :
  (forall wd, P wd -> P (f wd)) -> keeping P (store (LuaVM:=LuaVM) w f).
Proof.
  intros Hf σ. unfold store.
  destruct (widgets σ.1 !! w) as [wd|] eqn:Hw; simpl; [|apply keeps_refl].
  intros w' wd' Hw' HP. cbn.
  destruct (decide (w = w')) as [->|Hne].
  - rewrite lookup_insert_eq. exists (f wd). split; [done|].
    apply Hf. congruence.
  - rewrite lookup_insert_ne by done. eauto.
Qed.

Lemma keeping_luaL_error {A} fmt args :
  keeping P (luaL_error (LuaVM:=LuaVM) (A:=A) fmt args).
Proof. intros σ. apply keeps_refl. Qed.

Lemma keeping_vm (f : LuaVM -> LuaVM) s : keeps P s (on_vm f s).
Proof. by apply keeps_same_widgets. Qed.

Lemma keeping_vm_res {A} (f : LuaVM -> LuaVM * res A) s :
  keeps P s (fst (on_vm_res f s)).
Proof. by apply keeps_same_widgets. Qed.

Hypothesis Hstable : stable P.
Hypothesis Hrespects : respects P.

Lemma keeping_run_op o : keeping P (run_op o).
Proof.
  destruct o as [| | | |w|w|w]; simpl.
  - unfold luaH_widget_gc.
    apply keeping_bind; [apply keeping_call, Hrespects|]. intros widget.
    apply keeping_bind; [apply keeping_load|]. intros wd.
    apply keeping_bind; [|intros _; apply keeping_call, Hrespects].
    destruct (destructor wd); [|apply keeping_ret].
    apply keeping_call. intros s. apply Hrespects.
  - unfold luaH_widget_new.
    apply keeping_bind; [apply keeping_call, Hrespects|]. intros _.
    apply keeping_bind; [apply keeping_call, Hrespects|]. intros w.
    apply keeping_bind; [apply keeping_store; intros; by apply Hstable|].
    intros _.
    apply keeping_bind; [apply keeping_store; intros; by apply Hstable|].
    intros _.
    apply keeping_bind; [apply keeping_call; intros s; apply keeping_vm|].
    intros _.
    apply keeping_bind; [apply keeping_call, Hrespects|]. intros r.
    apply keeping_bind; [apply keeping_store; intros; by apply Hstable|].
    intros _. apply keeping_ret.
  - unfold luaH_widget_index.
    apply keeping_bind; [apply keeping_call, keeping_vm_res|]. intros prop.
    apply keeping_bind; [apply keeping_call, Hrespects|]. intros n.
    destruct (negb (n =? 0)); [apply keeping_ret|].
    apply keeping_bind; [apply keeping_call, Hrespects|]. intros widget.
    apply keeping_bind; [apply keeping_load|]. intros wd.
    destruct (index wd); [apply keeping_call, Hrespects|apply keeping_ret].
  - unfold luaH_widget_newindex.
    apply keeping_bind; [apply keeping_call, keeping_vm_res|]. intros prop.
    apply keeping_bind; [apply keeping_call, Hrespects|]. intros _.
    apply keeping_bind; [apply keeping_call, Hrespects|]. intros widget.
    apply keeping_bind; [apply keeping_load|]. intros wd.
    destruct (newindex wd); [apply keeping_call, Hrespects|apply keeping_ret].
  - unfold luaH_widget_set_type.
    apply keeping_bind; [apply keeping_load|]. intros wd.
    apply keeping_bind;
      [destruct (type wd); [apply keeping_luaL_error|apply keeping_ret]|].
    intros _.
    apply keeping_bind; [apply keeping_call, keeping_vm_res|]. intros name.
    destruct (constructor_of_token (l_tokenize name)) as [wc|];
      [|apply keeping_luaL_error].
    apply keeping_bind; [apply keeping_call; intros s; apply Hrespects|].
    intros _.
    apply keeping_bind; [apply keeping_store; intros; by apply Hstable|].
    intros _.
    apply keeping_bind; [apply keeping_call, Hrespects|]. intros _.
    apply keeping_ret.
  - unfold luaH_widget_get_type.
    apply keeping_bind; [apply keeping_load|]. intros wd.
    destruct (type wd) as [t|]; [|apply keeping_ret].
    apply keeping_bind; [|intros _; apply keeping_ret].
    apply keeping_call. intros s. apply keeping_vm.
  - unfold luaH_widget_get_parent.
    apply keeping_bind; [apply keeping_load|]. intros wd.
    destruct (parent wd) as [p|].
    + apply keeping_bind; [apply keeping_load|]. intros pw.
      apply keeping_bind; [apply keeping_call, Hrespects|]. intros _.
      apply keeping_ret.
    + destruct (window wd) as [q|]; [|apply keeping_ret].
      apply keeping_bind; [apply keeping_load_window|]. intros wn.
      apply keeping_bind; [apply keeping_call, Hrespects|]. intros _.
      apply keeping_ret.
Qed.

(** X1.  The writes of [widget.c] to a widget are [parent = NULL],
    [window = NULL], [ref = r] and [type = name], and nothing else.  So a
    property of widget records that survives these four writes and that the
    code outside [widget.c] keeps, holds of a widget through every sequence
    of operations, whether they return, raise or fault. *)
Theorem stable_property_invariant os s : keeps P s (run_ops os s).
Proof.
  revert s. induction os as [|o os IH]; intros s; simpl.
  - apply keeps_refl.
  - eapply keeps_trans; [apply (keeping_run_op o (s, []))|apply IH].
Qed.
End Invariants.

Section Shapes.
Context {LuaVM : Type} `{!Runtime LuaVM}.
Implicit Types (s : lua_State LuaVM) (σ : world LuaVM).

(** ** The call sequences of the operations *)

Lemma gc_log s :
  log_of (run luaH_widget_gc s) = [Call_luaH_checkudata 1] \/
  log_of (run luaH_widget_gc s) =
    [Call_luaH_checkudata 1; Call_luaH_object_gc] \/
  exists d w,
    log_of (run luaH_widget_gc s) =
      [Call_luaH_checkudata 1; Call_destructor d w; Call_luaH_object_gc].
Proof.
  unfold run, luaH_widget_gc, bind, load, log_of. simpl.
  destruct (luaH_checkudata_sem 1 s) as [s1 [widget|e|]]; simpl; auto.
  destruct (widgets s1 !! widget) as [wd|]; simpl; auto.
  destruct (destructor wd) as [d|]; simpl.
  - right. right. exists d, widget.
    by destruct (luaH_object_gc_sem (destructor_sem d widget s1))
      as [s2 [n|e|]].
  - right. left. by destruct (luaH_object_gc_sem s1) as [s2 [n|e|]].
Qed.

Lemma new_log s :
  log_of (run luaH_widget_new s) = [Call_luaH_class_new] \/
  log_of (run luaH_widget_new s) =
    [Call_luaH_class_new; Call_luaH_checkudata (-1)] \/
  log_of (run luaH_widget_new s) =
    [Call_luaH_class_new; Call_luaH_checkudata (-1);
     Call_lua_pushvalue (-1); Call_luaH_object_ref_class (-1)].
Proof.
  unfold run, luaH_widget_new, bind, store, log_of. simpl.
  destruct (luaH_class_new_sem s) as [s1 [n1|e|]]; simpl; auto.
  destruct (luaH_checkudata_sem (-1) s1) as [s2 [w|e|]]; simpl; auto.
  destruct (widgets s2 !! w) as [wd|]; simpl; auto.
  rewrite lookup_insert_eq. simpl.
  right. right.
  match goal with
  | |- context [luaH_object_ref_class_sem (-1) ?x] =>
      destruct (luaH_object_ref_class_sem (-1) x) as [s4 [r|e|]]
  end; simpl; auto.
  by destruct (widgets s4 !! w).
Qed.

Lemma get_type_log s w :
  log_of (run (luaH_widget_get_type w) s) = [] \/
  exists t, log_of (run (luaH_widget_get_type w) s) = [Call_lua_pushstring t].
Proof.
  unfold run, luaH_widget_get_type, bind, load, log_of. simpl.
  destruct (widgets s !! w) as [wd|]; simpl; auto.
  destruct (type wd) as [t|]; simpl; eauto.
Qed.

Lemma get_parent_log s w :
  log_of (run (luaH_widget_get_parent w) s) = [] \/
  exists r,
    log_of (run (luaH_widget_get_parent w) s) = [Call_luaH_object_push r].
Proof.
  unfold run, luaH_widget_get_parent, bind, load, load_window, log_of. simpl.
  destruct (widgets s !! w) as [wd|]; simpl; auto.
  destruct (parent wd) as [p|]; simpl.
  - destruct (widgets s !! p) as [pw|]; simpl; auto.
    right. exists (ref pw).
    by destruct (luaH_object_push_sem (ref pw) s) as [s1 [n|e|]].
  - destruct (window wd) as [q|]; simpl; auto.
    destruct (windows s !! q) as [wn|]; simpl; auto.
    right. exists (win_ref wn).
    by destruct (luaH_object_push_sem (win_ref wn) s) as [s1 [n|e|]].
Qed.

Lemma index_log s :
  exists f tok k,
    log_of (run luaH_widget_index s) ++ k = index_calls f tok /\
    log_of (run luaH_widget_index s) <> [].
Proof.
  destruct (index_outcomes s); unfold log_of, index_calls; simpl.
  1-6: exists 0%N, L_TK_UNKNOWN; eexists; split; [reflexivity|done].
  exists f, (l_tokenize prop), []. by split.
Qed.

Lemma newindex_log s :
  exists f tok k,
    log_of (run luaH_widget_newindex s) ++ k = newindex_calls f tok /\
    log_of (run luaH_widget_newindex s) <> [].
Proof.
  destruct (newindex_outcomes s); unfold log_of, newindex_calls; simpl.
  1-5: exists 0%N, L_TK_UNKNOWN; eexists; split; [reflexivity|done].
  exists f, (l_tokenize prop), []. by split.
Qed.

Lemma set_type_log s w :
  exists wc name k,
    log_of (run (luaH_widget_set_type w) s) ++ k =
      [Call_luaL_checklstring (-1); Call_constructor wc w;
       Call_luaH_object_emit_signal (-3) "init" 0] \/
    log_of (run (luaH_widget_set_type w) s) =
      [Call_luaL_error fmt_already [name]] \/
    log_of (run (luaH_widget_set_type w) s) =
      [Call_luaL_checklstring (-1); Call_luaL_error fmt_unknown [name]].
Proof.
  destruct (set_type_outcomes s w) as
    [H0|wd0 t0 H0 Ht0|wd0 H0 Ht0 Hn|wd0 t H0 Ht0 Hn Hc
    |wd0 t wc H0 Ht0 Hn Hc H1|wd0 t wc wd1 H0 Ht0 Hn Hc H1];
    unfold log_of; simpl.
  - exists widget_webview, EmptyString. eexists. left. reflexivity.
  - exists widget_webview, t0, []. auto.
  - exists widget_webview, EmptyString. eexists. left. reflexivity.
  - exists widget_webview, (c_str t), []. auto.
  - exists wc, t. eexists. left. reflexivity.
  - exists wc, t, []. auto.
Qed.
End Shapes.

Section Further.
Context {LuaVM : Type} `{!Runtime LuaVM}.
Implicit Types (s : lua_State LuaVM) (σ : world LuaVM).

Ltac initial_segment H :=
  match type of H with
  | ?l ++ _ = _ =>
      destruct l as [|? [|? [|? [|? [|? ?]]]]]; simplify_eq/=
  end.

(** X2.  The calls of a property read are, in every run, a non-empty
    initial segment of: the check of the name at stack index 2, the class
    index, the check of the widget at stack index 1, the backend index
    handler.  The calls of a write are the same with the class newindex and
    the backend newindex handler.  So a handler is never reached before the
    checks ahead of it, and nothing is called after the backend handler. *)
Theorem access_call_order s :
  (exists f tok,
     log_of (run luaH_widget_index s) `prefix_of` index_calls f tok) /\
  log_of (run luaH_widget_index s) <> [] /\
  (exists f tok,
     log_of (run luaH_widget_newindex s) `prefix_of` newindex_calls f tok) /\
  log_of (run luaH_widget_newindex s) <> [].
Proof.
  destruct (index_log s) as (f & tok & k & Hk & Hne).
  destruct (newindex_log s) as (f' & tok' & k' & Hk' & Hne').
  repeat split; try done.
  - exists f, tok, k. by rewrite Hk.
  - exists f', tok', k'. by rewrite Hk'.
Qed.

(** X3.  Every operation makes at most one call into a backend, and of its
    own kind only: a collection calls a destructor, a read an index handler,
    a write a newindex handler, a type assignment a constructor on the
    widget it was given; the constructor of the class and the two getters
    call no backend at all. *)
Theorem one_backend_call_per_operation o s :
  let calls := List.filter is_backend_call (log_of (run (run_op o) s)) in
  (length calls <= 1)%nat /\
  Forall (fun e => backend_call_of o e = true) calls.
Proof.
  destruct o as [| | | |w|w|w]; simpl.
  - destruct (gc_log s) as [->|[->|(d & w & ->)]]; simpl;
      split; auto; lia.
  - destruct (new_log s) as [->|[->| ->]]; simpl; split; auto; lia.
  - destruct (index_log s) as (f & tok & k & Hk & _).
    unfold index_calls in Hk. initial_segment Hk; split; auto; lia.
  - destruct (newindex_log s) as (f & tok & k & Hk & _).
    unfold newindex_calls in Hk. initial_segment Hk; split; auto; lia.
  - destruct (set_type_log s w) as (wc & name & k & [Hk|[-> | ->]]);
      [initial_segment Hk| |]; simpl; split; auto; try lia.
    all: constructor; [apply N.eqb_refl|constructor].
  - destruct (get_type_log s w) as [->|(t & ->)]; simpl; split; auto; lia.
  - destruct (get_parent_log s w) as [->|(r & ->)]; simpl; split; auto; lia.
Qed.

(** X4.  Only the type assignment raises errors of its own.  No other
    operation of [widget.c] calls [luaL_error]: when one of them ends in a
    Lua error, a callee raised it. *)
Theorem only_set_type_raises o s :
  (forall w, o <> Op_set_type w) ->
  Forall (fun e => is_own_error e = false) (log_of (run (run_op o) s)).
Proof.
  intros Ho. destruct o as [| | | |w|w|w]; simpl.
  - destruct (gc_log s) as [->|[->|(d & w & ->)]]; repeat constructor.
  - destruct (new_log s) as [->|[->| ->]]; repeat constructor.
  - destruct (index_log s) as (f & tok & k & Hk & _).
    unfold index_calls in Hk. initial_segment Hk; repeat constructor.
  - destruct (newindex_log s) as (f & tok & k & Hk & _).
    unfold newindex_calls in Hk. initial_segment Hk; repeat constructor.
  - by destruct (Ho w).
  - destruct (get_type_log s w) as [->|(t & ->)]; repeat constructor.
  - destruct (get_parent_log s w) as [->|(r & ->)]; repeat constructor.
Qed.

(** X5.  A collection reaches the generic [luaH_object_gc] exactly when
    the value at stack index 1 is a widget of the store, whether that
    widget has a destructor or not; in particular a destructor never stands
    in for the generic collection. *)
Theorem gc_reaches_object_gc s :
  In Call_luaH_object_gc (log_of (run luaH_widget_gc s)) <->
  exists s1 w wd,
    luaH_checkudata_sem 1 s = (s1, Ok w) /\ widgets s1 !! w = Some wd.
Proof.
  unfold run, luaH_widget_gc, bind, load, log_of. simpl.
  destruct (luaH_checkudata_sem 1 s) as [s1 [widget|e|]] eqn:Hu; simpl.
  2,3: split; [intuition discriminate|by intros (? & ? & ? & [=] & _)].
  destruct (widgets s1 !! widget) as [wd|] eqn:Hw; simpl.
  - split; [eauto|intros _].
    destruct (destructor wd) as [d|]; simpl.
    + destruct (luaH_object_gc_sem (destructor_sem d widget s1))
        as [s2 [n|e|]]; simpl; auto.
    + destruct (luaH_object_gc_sem s1) as [s2 [n|e|]]; simpl; auto.
  - split; [intuition discriminate|].
    intros (? & ? & ? & [= <- <-] & ?). congruence.
Qed.
End Further.

Section Construction.
Context {LuaVM : Type} `{!Runtime LuaVM}.
Implicit Types (s : lua_State LuaVM) (σ : world LuaVM).

Lemma unparented_lookup w wd s2 :
  widgets (unparented w wd s2) !! w =
    Some (with_window None (with_parent None wd)).
Proof. unfold unparented, on_vm, assign. cbn. apply lookup_insert_eq. Qed.

Lemma unparented_lookup_ne w w' wd s2 :
  w <> w' -> widgets (unparented w wd s2) !! w' = widgets s2 !! w'.
Proof.
  intros Hne. unfold unparented, on_vm, assign. cbn.
  by rewrite !lookup_insert_ne.
Qed.

(** The runs of [luaH_widget_new] that return. *)
Lemma new_ok_inv s σ n :
  run luaH_widget_new s = (σ, Ok n) ->
  n = 1 /\
  exists s1 n1 s2 w wd s4 r wd4,
    luaH_class_new_sem s = (s1, Ok n1) /\
    luaH_checkudata_sem (-1) s1 = (s2, Ok w) /\
    widgets s2 !! w = Some wd /\
    luaH_object_ref_class_sem (-1) (unparented w wd s2) = (s4, Ok r) /\
    widgets s4 !! w = Some wd4 /\
    fst σ = assign w (with_ref r) wd4 s4.
Proof.
  unfold run, luaH_widget_new. intros Hout.
  apply bind_ok_inv in Hout as (n1 & σ1 & Hnew & Hout).
  apply call_ok_inv in Hnew as [Hnew _].
  apply bind_ok_inv in Hout as (w & σ2 & Hu & Hout).
  apply call_ok_inv in Hu as [Hu _].
  apply bind_ok_inv in Hout as (u3 & σ3 & Hp & Hout).
  apply store_ok_inv in Hp as (wd & Hw & ->).
  apply bind_ok_inv in Hout as (u4 & σ4 & Hq & Hout).
  apply store_ok_inv in Hq as (wd3 & Hw3 & ->).
  apply bind_ok_inv in Hout as (u5 & σ5 & Hv & Hout).
  apply call_ok_inv in Hv as [Hv _].
  apply bind_ok_inv in Hout as (r & σ6 & Hr & Hout).
  apply call_ok_inv in Hr as [Hr _].
  apply bind_ok_inv in Hout as (u7 & σ7 & Hs & Hout).
  apply store_ok_inv in Hs as (wd6 & Hw6 & ->).
  injection Hout as <- <-. simpl in *.
  unfold returns in Hv. injection Hv as Hv.
  assert (wd3 = with_parent None wd) as ->.
  { unfold assign in Hw3. cbn in Hw3. rewrite lookup_insert_eq in Hw3.
    congruence. }
  rewrite <- Hv in Hr. fold (unparented w wd σ2.1) in Hr.
  split; [done|].
  exists σ1.1, n1, σ2.1, w, wd, σ6.1, r, wd6. by repeat split.
Qed.

(** X6.  [luaH_widget_new] takes a reference exactly when [luaH_class_new]
    has returned and [luaH_checkudata] has accepted the object on top of the
    stack as a widget of the store; a construction that raises before that
    holds no reference to the half-built object.  The reference is taken
    from a state in which the widget has neither parent nor window. *)
Theorem new_takes_reference_iff s :
  (In (Call_luaH_object_ref_class (-1)) (log_of (run luaH_widget_new s)) <->
   exists s1 n1 s2 w wd,
     luaH_class_new_sem s = (s1, Ok n1) /\
     luaH_checkudata_sem (-1) s1 = (s2, Ok w) /\
     widgets s2 !! w = Some wd) /\
  (forall s1 n1 s2 w wd,
     luaH_class_new_sem s = (s1, Ok n1) ->
     luaH_checkudata_sem (-1) s1 = (s2, Ok w) ->
     widgets s2 !! w = Some wd ->
     widgets (unparented w wd s2) !! w =
       Some (with_window None (with_parent None wd)) /\
     result_of (run luaH_widget_new s) =
       match luaH_object_ref_class_sem (-1) (unparented w wd s2) with
       | (s4, Ok r) =>
           match widgets s4 !! w with Some _ => Ok 1 | None => Fault end
       | (_, Throw e) => Throw e
       | (_, Fault) => Fault
       end).
Proof.
  split.
  - unfold run, luaH_widget_new, bind, store, log_of. simpl.
    destruct (luaH_class_new_sem s) as [s1 [n1|e|]] eqn:Hnew; simpl.
    2,3: split; [intuition discriminate|by intros (?&?&?&?&?&[=]&_)].
    destruct (luaH_checkudata_sem (-1) s1) as [s2 [w|e|]] eqn:Hu; simpl.
    2,3: split; [intuition discriminate|].
    2,3: intros (?&?&?&?&?&[= <- <-]&Hu'&_); rewrite Hu in Hu';
         discriminate.
    destruct (widgets s2 !! w) as [wd|] eqn:Hw; simpl.
    2: { split; [intuition discriminate|].
         intros (?&?&?&?&?&[= <- <-]&Hu'&Hw'). rewrite Hu in Hu'.
         injection Hu' as <- <-. congruence. }
    split; [intros _; by exists s1, n1, s2, w, wd|intros _].
    rewrite lookup_insert_eq. simpl.
    match goal with
    | |- context [luaH_object_ref_class_sem (-1) ?x] =>
        destruct (luaH_object_ref_class_sem (-1) x) as [s4 [r|e|]]
    end; simpl; auto.
    destruct (widgets s4 !! w); simpl; auto.
  - intros s1 n1 s2 w wd Hnew Hu Hw. split; [apply unparented_lookup|].
    unfold run, luaH_widget_new, bind, store, result_of. simpl.
    rewrite Hnew. simpl. rewrite Hu. simpl. rewrite Hw. simpl.
    unfold assign at 1. cbn [widgets with_widgets].
    rewrite lookup_insert_eq. simpl.
    repeat match goal with
    | |- context [luaH_object_ref_class_sem (-1) ?x] =>
        progress change x with (unparented w wd s2)
    end.
    destruct (luaH_object_ref_class_sem (-1) (unparented w wd s2))
      as [s4 [r|e|]]; simpl; auto.
    by destruct (widgets s4 !! w).
Qed.

(** X7.  Suppose [luaH_object_ref_class] leaves the widget records alone.
    When [luaH_widget_new] returns, the new widget has the type name and the
    three handlers it had when [luaH_class_new] returned (a type assigned
    during construction is not lost), and every other widget is as
    [luaH_class_new] and [luaH_checkudata] left it. *)
Theorem new_keeps_type_and_handlers s n :
  (forall idx s0,
     widgets (fst (luaH_object_ref_class_sem idx s0)) = widgets s0) ->
  let out := run luaH_widget_new s in
  result_of out = Ok n ->
  exists s1 n1 s2 w wd wd',
    luaH_class_new_sem s = (s1, Ok n1) /\
    luaH_checkudata_sem (-1) s1 = (s2, Ok w) /\
    widgets s2 !! w = Some wd /\
    widgets (state_of out) !! w = Some wd' /\
    type wd' = type wd /\
    index wd' = index wd /\
    newindex wd' = newindex wd /\
    destructor wd' = destructor wd /\
    (forall w', w' <> w ->
       widgets (state_of out) !! w' = widgets s2 !! w').
Proof.
  intros Hframe out. unfold result_of, state_of.
  destruct out as [σ r8] eqn:Hout. simpl. intros ->. subst out.
  apply new_ok_inv in Hout
    as (_ & s1 & n1 & s2 & w & wd & s4 & r & wd4 & Hnew & Hu & Hw & Hr
        & Hw4 & ->).
  pose proof (Hframe (-1) (unparented w wd s2)) as E.
  rewrite Hr in E. cbn [fst] in E.
  assert (wd4 = with_window None (with_parent None wd)) as ->.
  { rewrite E, unparented_lookup in Hw4. congruence. }
  exists s1, n1, s2, w, wd,
    (with_ref r (with_window None (with_parent None wd))).
  repeat split; try done.
  - unfold assign. cbn. apply lookup_insert_eq.
  - intros w' Hne. unfold assign. cbn.
    rewrite lookup_insert_ne by done. rewrite E.
    by apply unparented_lookup_ne.
Qed.

(** X8.  Suppose [luaH_object_ref_class] leaves the widget records alone.
    Reading the parent of a widget that [luaH_widget_new] has just returned
    pushes nothing and returns no value: a new widget has no parent, even if
    the object that [luaH_class_new] built had a parent or a window. *)
Theorem new_widget_has_no_parent s n :
  (forall idx s0,
     widgets (fst (luaH_object_ref_class_sem idx s0)) = widgets s0) ->
  let out := run luaH_widget_new s in
  result_of out = Ok n ->
  exists s1 n1 s2 w,
    luaH_class_new_sem s = (s1, Ok n1) /\
    luaH_checkudata_sem (-1) s1 = (s2, Ok w) /\
    run (luaH_widget_get_parent w) (state_of out) =
      ((state_of out, []), Ok 0).
Proof.
  intros Hframe out. unfold result_of, state_of.
  destruct out as [σ r8] eqn:Hout. simpl. intros ->. subst out.
  apply new_ok_inv in Hout
    as (_ & s1 & n1 & s2 & w & wd & s4 & r & wd4 & Hnew & Hu & Hw & Hr
        & Hw4 & ->).
  pose proof (Hframe (-1) (unparented w wd s2)) as E.
  rewrite Hr in E. cbn [fst] in E.
  assert (wd4 = with_window None (with_parent None wd)) as ->.
  { rewrite E, unparented_lookup in Hw4. congruence. }
  exists s1, n1, s2, w. repeat split; try done.
  unfold run, luaH_widget_get_parent, bind, load. simpl.
  unfold assign at 1. cbn [widgets with_widgets].
  by rewrite lookup_insert_eq.
Qed.
End Construction.

Section Assignments.
Context {LuaVM : Type} `{!Runtime LuaVM}.
Implicit Types (s : lua_State LuaVM) (σ : world LuaVM).

(** X9.  Suppose the handlers of the signal [init] leave the record of [w]
    alone.  After a type assignment to [w] that returned, a second one, with
    whatever name, raises the duplicate-assignment error that names the
    first type, as it was stored, and leaves the state as the first
    assignment left it. *)
Theorem second_assignment_fails s w n :
  (forall s0, widgets (fst (emit_init s0)) !! w = widgets s0 !! w) ->
  let out := run (luaH_widget_set_type w) s in
  result_of out = Ok n ->
  exists t,
    name_of s = Ok t /\
    forall v,
      run (luaH_widget_set_type w) (with_vm v (state_of out)) =
        ((with_vm v (state_of out),
          [Call_luaL_error fmt_already [g_strdup t]]),
         Throw (fmt_already, [g_strdup t])).
Proof.
  intros Hframe out Hok. subst out.
  destruct (set_type_ok_assignment s w n Hok) as (t & wc & wd1 & Ha).
  exists t. split; [apply Ha|]. intros v.
  rewrite (set_type_assigned s w t wc wd1 Ha). unfold state_of. simpl.
  apply set_type_already with (with_type (Some (g_strdup t)) wd1); [|done].
  cbn. rewrite Hframe. apply typed_lookup.
Qed.

(** X10.  A type assignment writes to the store only after it has called a
    constructor: a run without a constructor call (the widget is typed
    already, no string is given, the name is unknown, the address holds no
    widget) leaves every widget and every window as it was. *)
Theorem set_type_writes_after_constructor s w :
  let out := run (luaH_widget_set_type w) s in
  List.filter is_constructor_call (log_of out) = [] ->
  widgets (state_of out) = widgets s /\ windows (state_of out) = windows s.
Proof.
  intros out. subst out.
  destruct (set_type_outcomes s w); unfold log_of, state_of; simpl;
    try discriminate; done.
Qed.

(** X11.  The two getters return as many values as they push: reading the
    type returns the number of strings pushed, reading the parent the number
    of object handles pushed.  Reading the type of a widget of the store
    always returns, with 0 or 1, and leaves every widget and window as it
    was. *)
Theorem getters_return_what_they_push s w :
  (forall n,
     result_of (run (luaH_widget_get_type w) s) = Ok n ->
     n = Z.of_nat
           (length (List.filter is_push
                      (log_of (run (luaH_widget_get_type w) s))))) /\
  (forall n,
     result_of (run (luaH_widget_get_parent w) s) = Ok n ->
     n = Z.of_nat
           (length (List.filter is_push
                      (log_of (run (luaH_widget_get_parent w) s))))) /\
  (forall wd,
     widgets s !! w = Some wd ->
     (result_of (run (luaH_widget_get_type w) s) = Ok 0 \/
      result_of (run (luaH_widget_get_type w) s) = Ok 1) /\
     widgets (state_of (run (luaH_widget_get_type w) s)) = widgets s /\
     windows (state_of (run (luaH_widget_get_type w) s)) = windows s).
Proof.
  repeat split.
  - intros n.
    unfold run, luaH_widget_get_type, bind, load, result_of, log_of. simpl.
    destruct (widgets s !! w) as [wd|]; simpl; [|discriminate].
    destruct (type wd) as [t|]; simpl; by intros [= <-].
  - intros n.
    unfold run, luaH_widget_get_parent, bind, load, load_window, result_of,
      log_of. simpl.
    destruct (widgets s !! w) as [wd|]; simpl; [|discriminate].
    destruct (parent wd) as [p|]; simpl.
    + destruct (widgets s !! p) as [pw|]; simpl; [|discriminate].
      destruct (luaH_object_push_sem (ref pw) s) as [s1 [k|e|]]; simpl;
        try discriminate.
      by intros [= <-].
    + destruct (window wd) as [q|]; simpl; [|by intros [= <-]].
      destruct (windows s !! q) as [wn|]; simpl; [|discriminate].
      destruct (luaH_object_push_sem (win_ref wn) s) as [s1 [k|e|]]; simpl;
        try discriminate.
      by intros [= <-].
  - rewrite (get_type_run s w wd) by done.
    destruct (type wd); unfold result_of; simpl; auto.
  - rewrite (get_type_run s w wd) by done.
    by destruct (type wd).
  - rewrite (get_type_run s w wd) by done.
    by destruct (type wd).
Qed.
End Assignments.

Section Frames.
Context {LuaVM : Type} `{!Runtime LuaVM}.
Implicit Types (s : lua_State LuaVM) (σ : world LuaVM).

(** X12.  A type assignment to [w] writes to the record of [w] only: any
    other widget that the chosen constructor and the handlers of [init]
    leave alone is, after the call, as it was before, however the call
    ends. *)
Theorem set_type_leaves_others s w w' :
  w' <> w ->
  (forall wc s0, widgets (constructor_sem wc w s0) !! w' = widgets s0 !! w') ->
  (forall s0, widgets (fst (emit_init s0)) !! w' = widgets s0 !! w') ->
  widgets (state_of (run (luaH_widget_set_type w) s)) !! w' =
    widgets s !! w'.
Proof.
  intros Hne Hctor Hemit.
  destruct (set_type_outcomes s w); unfold state_of; simpl; try done.
  - unfold constructed. by rewrite Hctor.
  - rewrite Hemit. unfold typed, assign. cbn.
    rewrite lookup_insert_ne by done. unfold constructed. by rewrite Hctor.
Qed.

(** X13.  Collection, property reads and writes, and the two getters never
    write to a widget record themselves: whatever the code outside
    [widget.c] keeps of the widget records, these operations keep. *)
Theorem read_only_operations (P : widget_t -> Prop) o s :
  respects P -> writes o = false ->
  keeps P s (state_of (run (run_op o) s)).
Proof.
  intros HP Ho.
  cut (keeping P (run_op o)); [intros Hk; exact (Hk (s, []))|].
  destruct o as [| | | |w|w|w]; simpl in *; try discriminate.
  - unfold luaH_widget_gc.
    apply keeping_bind; [apply keeping_call, HP|]. intros widget.
    apply keeping_bind; [apply keeping_load|]. intros wd.
    apply keeping_bind; [|intros _; apply keeping_call, HP].
    destruct (destructor wd); [|apply keeping_ret].
    apply keeping_call. intros s0. apply HP.
  - unfold luaH_widget_index.
    apply keeping_bind; [apply keeping_call, keeping_vm_res|]. intros prop.
    apply keeping_bind; [apply keeping_call, HP|]. intros n.
    destruct (negb (n =? 0)); [apply keeping_ret|].
    apply keeping_bind; [apply keeping_call, HP|]. intros widget.
    apply keeping_bind; [apply keeping_load|]. intros wd.
    destruct (index wd); [apply keeping_call, HP|apply keeping_ret].
  - unfold luaH_widget_newindex.
    apply keeping_bind; [apply keeping_call, keeping_vm_res|]. intros prop.
    apply keeping_bind; [apply keeping_call, HP|]. intros _.
    apply keeping_bind; [apply keeping_call, HP|]. intros widget.
    apply keeping_bind; [apply keeping_load|]. intros wd.
    destruct (newindex wd); [apply keeping_call, HP|apply keeping_ret].
  - unfold luaH_widget_get_type.
    apply keeping_bind; [apply keeping_load|]. intros wd.
    destruct (type wd) as [t|]; [|apply keeping_ret].
    apply keeping_bind; [|intros _; apply keeping_ret].
    apply keeping_call. intros s0. apply keeping_vm.
  - unfold luaH_widget_get_parent.
    apply keeping_bind; [apply keeping_load|]. intros wd.
    destruct (parent wd) as [p|].
    + apply keeping_bind; [apply keeping_load|]. intros pw.
      apply keeping_bind; [apply keeping_call, HP|]. intros _.
      apply keeping_ret.
    + destruct (window wd) as [q|]; [|apply keeping_ret].
      apply keeping_bind; [apply keeping_load_window|]. intros wn.
      apply keeping_bind; [apply keeping_call, HP|]. intros _.
      apply keeping_ret.
Qed.
End Frames.

(** * The further properties on the small runtime *)

Lemma sample_respects (P : widget_t -> Prop) :
  (forall wc wd, P wd -> P (Sample.install wc wd)) ->
  @respects _ Sample.runtime P.
Proof.
  intros Hinstall. split; simpl.
  - intros ud s. unfold Sample.checkudata.
    destruct (Sample.slot ud (vm s)) as [[| |p]|]; try apply keeps_refl.
    destruct (widgets s !! p); apply keeps_refl.
  - intros s. apply keeps_refl.
  - intros s. unfold Sample.class_new.
    destruct (widgets s !! N.succ (N.of_nat (size (widgets s)))) eqn:E;
      [apply keeps_refl|].
    intros w wd Hw HP. cbn. exists wd. split; [|done].
    rewrite lookup_insert_ne; [done|]. intros <-. congruence.
  - intros idx s. unfold Sample.object_ref_class.
    destruct (Sample.slot idx (vm s)) as [[| |p]|];
      by apply keeps_same_widgets.
  - intros s. unfold Sample.class_index.
    destruct (Sample.slot 1 (vm s)) as [[| |p]|]; try apply keeps_refl.
    destruct (Sample.slot 2 (vm s)) as [[|k|]|]; try apply keeps_refl.
    destruct (Sample.tokenize k); try apply keeps_refl.
    destruct (widgets s !! p) as [wd|]; try apply keeps_refl.
    destruct (type wd); by apply keeps_same_widgets.
  - intros s. apply keeps_refl.
  - intros oud name nargs s. apply keeps_refl.
  - intros p s. by apply keeps_same_widgets.
  - intros wc w s w' wd Hw HP. unfold Sample.construct. cbn.
    destruct (decide (w = w')) as [->|Hne].
    + rewrite lookup_alter_eq, Hw. simpl. eauto.
    + rewrite lookup_alter_ne by done. eauto.
  - intros f w s. apply keeps_refl.
  - intros f tok s. by apply keeps_same_widgets.
  - intros f tok s. apply keeps_refl.
Qed.

Lemma stable_property_invariant_witness :
  exists wd',
    widgets (run_ops [Op_new; Op_set_type 2%N; Op_index; Op_gc]
                     (Sample.accessing "uri")) !! 1%N = Some wd' /\
    parent wd' = None /\ window wd' = None.
Proof.
  pose (P := fun wd : widget_t => parent wd = None /\ window wd = None).
  assert (Hstable : stable P) by (by intros wd [Hp Hq]).
  assert (Hrespects : @respects _ Sample.runtime P)
    by (apply sample_respects; by intros wc wd [Hp Hq]).
  destruct (stable_property_invariant P Hstable Hrespects
              [Op_new; Op_set_type 2%N; Op_index; Op_gc]
              (Sample.accessing "uri") 1%N Sample.webview)
    as (wd' & Hw' & Hp & Hq); [reflexivity|by split|].
  by exists wd'.
Defined.

Lemma only_set_type_raises_witness :
  Forall (fun e => is_own_error e = false)
         (log_of (run (run_op Op_new) (Sample.untyped "webview"))).
Proof.
  apply (only_set_type_raises Op_new (Sample.untyped "webview")).
  intros w. discriminate.
Defined.

Lemma new_takes_reference_iff_witness :
  In (Call_luaH_object_ref_class (-1))
     (log_of (run luaH_widget_new (Sample.untyped "webview"))) /\
  result_of (run luaH_widget_new (Sample.untyped "webview")) = Ok 1.
Proof.
  destruct (new_takes_reference_iff (Sample.untyped "webview"))
    as [Hiff Hresult].
  split.
  - apply Hiff.
    by exists (fst (luaH_class_new_sem (Sample.untyped "webview"))), 1,
      (fst (luaH_class_new_sem (Sample.untyped "webview"))), 2%N,
      Sample.blank.
  - destruct (Hresult
                (fst (luaH_class_new_sem (Sample.untyped "webview"))) 1
                (fst (luaH_class_new_sem (Sample.untyped "webview")))
                2%N Sample.blank) as [_ ->]; reflexivity.
Defined.

Lemma sample_ref_class_frame idx (s0 : lua_State (list Sample.lua_value)) :
  widgets (fst (luaH_object_ref_class_sem idx s0)) = widgets s0.
Proof.
  simpl. unfold Sample.object_ref_class.
  by destruct (Sample.slot idx (vm s0)) as [[| |p]|].
Qed.

Lemma new_keeps_type_and_handlers_witness :
  let out := run luaH_widget_new (Sample.untyped "webview") in
  result_of out = Ok 1 /\
  exists s1 n1 s2 w wd wd',
    luaH_class_new_sem (Sample.untyped "webview") = (s1, Ok n1) /\
    luaH_checkudata_sem (-1) s1 = (s2, Ok w) /\
    widgets s2 !! w = Some wd /\
    widgets (state_of out) !! w = Some wd' /\
    type wd' = type wd /\
    index wd' = index wd /\
    newindex wd' = newindex wd /\
    destructor wd' = destructor wd /\
    (forall w', w' <> w ->
       widgets (state_of out) !! w' = widgets s2 !! w').
Proof.
  split; [reflexivity|].
  exact (new_keeps_type_and_handlers (Sample.untyped "webview") 1
           sample_ref_class_frame eq_refl).
Defined.

Lemma new_widget_has_no_parent_witness :
  let out := run luaH_widget_new (Sample.untyped "webview") in
  result_of out = Ok 1 /\
  exists s1 n1 s2 w,
    luaH_class_new_sem (Sample.untyped "webview") = (s1, Ok n1) /\
    luaH_checkudata_sem (-1) s1 = (s2, Ok w) /\
    run (luaH_widget_get_parent w) (state_of out) =
      ((state_of out, []), Ok 0).
Proof.
  split; [reflexivity|].
  exact (new_widget_has_no_parent (Sample.untyped "webview") 1
           sample_ref_class_frame eq_refl).
Defined.

Lemma second_assignment_fails_witness :
  let out := run (luaH_widget_set_type 1%N) (Sample.untyped "webview") in
  result_of out = Ok 0 /\
  exists t,
    name_of (Sample.untyped "webview") = Ok t /\
    forall v,
      run (luaH_widget_set_type 1%N) (with_vm v (state_of out)) =
        ((with_vm v (state_of out),
          [Call_luaL_error fmt_already [g_strdup t]]),
         Throw (fmt_already, [g_strdup t])).
Proof.
  split; [reflexivity|].
  apply (second_assignment_fails (Sample.untyped "webview") 1%N 0);
    [|reflexivity].
  intros s0. reflexivity.
Defined.

Lemma set_type_writes_after_constructor_witness :
  List.filter is_constructor_call
    (log_of (run (luaH_widget_set_type 1%N) (Sample.untyped "web"))) = [] /\
  widgets (state_of (run (luaH_widget_set_type 1%N) (Sample.untyped "web")))
    = widgets (Sample.untyped "web").
Proof.
  split; [reflexivity|].
  apply (set_type_writes_after_constructor (Sample.untyped "web") 1%N).
  reflexivity.
Defined.

Lemma getters_return_what_they_push_witness :
  result_of (run (luaH_widget_get_parent 1%N) Sample.nested) = Ok 1 /\
  1 = Z.of_nat
        (length (List.filter is_push
                   (log_of (run (luaH_widget_get_parent 1%N)
                                Sample.nested)))).
Proof.
  split; [reflexivity|].
  destruct (getters_return_what_they_push Sample.nested 1%N)
    as (_ & Hparent & _).
  by apply Hparent.
Defined.

Lemma set_type_leaves_others_witness :
  result_of (run (luaH_widget_set_type 1%N) (Sample.beside "hbox")) = Ok 0 /\
  log_of (run (luaH_widget_set_type 1%N) (Sample.beside "hbox")) =
    [Call_luaL_checklstring (-1); Call_constructor widget_hbox 1%N;
     Call_luaH_object_emit_signal (-3) "init" 0] /\
  widgets (state_of (run (luaH_widget_set_type 1%N) (Sample.beside "hbox")))
    !! 1%N = Some (Sample.install widget_hbox
                     (with_type (Some "hbox") Sample.blank)) /\
  widgets (state_of (run (luaH_widget_set_type 1%N) (Sample.beside "hbox")))
    !! 2%N = Some Sample.outer.
Proof.
  split; [reflexivity|]. split; [reflexivity|]. split; [reflexivity|].
  rewrite (set_type_leaves_others (Sample.beside "hbox") 1%N 2%N);
    [reflexivity|done| |done].
  intros wc s0. simpl. unfold Sample.construct. cbn.
  by rewrite lookup_alter_ne.
Defined.

Lemma read_only_operations_witness :
  exists wd',
    widgets (state_of (run (run_op Op_index) (Sample.accessing "uri")))
      !! 1%N = Some wd' /\
    ref wd' = 0%N.
Proof.
  assert (Hrespects : @respects _ Sample.runtime (fun wd => ref wd = 0%N))
    by (apply sample_respects; by intros wc wd).
  apply (read_only_operations (fun wd => ref wd = 0%N) Op_index
           (Sample.accessing "uri") Hrespects eq_refl 1%N Sample.webview);
    reflexivity.
Defined.
